(** * RoadSafe Analytics: the load / derive / filter / aggregate pipeline

    A shallow embedding of [roadsafe_app.py].  The dashboard reads one CSV
    table, derives the columns [Date], [Hour], [Weekday],
    [Visibility_Level] and [Road_Condition], keeps the rows whose required
    fields are present, filters them by the sidebar selections and reduces
    the filtered table to the small tables behind the charts.

    The widget framework and the data-frame library are outside the
    program: what the program receives from them (a parsed timestamp, a
    numerically coerced cell, the value of the date control) is data of the
    model. *)

From Stdlib Require Import ZArith String List SpecFloat.
From stdpp Require Import base decidable option list sorting gmap strings.

Local Open Scope string_scope.
Local Open Scope Z_scope.

(** ** Values *)

(** IEEE binary64 numbers, as the Standard Library specifies them. *)
Module Float.

Definition t := spec_float.
Definition prec : Z := 53.
Definition emax : Z := 1024.

Definition of_Z (z : Z) : t := binary_normalize prec emax z 0 false.
Definition nan : t := S754_nan.

Definition is_nan (x : t) : bool :=
  match x with S754_nan => true | _ => false end.

Definition eqb (x y : t) : bool := SFeqb x y.
(** [geb x y] is Python's [x >= y]: false as soon as one side is NaN. *)
Definition geb (x y : t) : bool := SFleb y x.

End Float.

(** A cell of a column whose type the program does not fix: what
    [row.get(name)] can hand to [road_condition] and what [pd.to_numeric]
    is applied to. *)
Inductive cell : Type :=
  | CNone
  | CBool (b : bool)
  | CInt (z : Z)
  | CFloat (x : Float.t)
  | CStr (s : string).

(** [v == True] in Python.  [True] is the integer 1: an integer equals it
    when it is 1, a float when it is 1.0; [None] and strings never do. *)
Definition eq_True (v : cell) : bool :=
  match v with
  | CNone => false
  | CBool b => b
  | CInt z => z =? 1
  | CFloat x => Float.eqb x (Float.of_Z 1)
  | CStr _ => false
  end.

(** [datetime.date], ordered as Python orders it: by year, month, day. *)
Record date : Type := mkdate { year : Z; month : Z; day : Z }.

Definition date_leb (a b : date) : bool :=
  (year a <? year b)
  || ((year a =? year b)
      && ((month a <? month b)
          || ((month a =? month b) && (day a <=? day b)))).

Definition date_le (a b : date) : Prop := date_leb a b = true.

#[global] Instance date_eq_dec : EqDecision date.
Proof. solve_decision. Defined.

(** What [pd.to_datetime] yields for a cell it can parse. *)
Record Timestamp : Type := mkTimestamp { ts_date : date; ts_hour : Z }.

(** ** The source table *)

(** A row as read from the file.  The required columns are typed by the
    fixed schema of the input, [None] standing for a missing value; the
    optional columns ([Visibility(mi)] and the infrastructure flags) are
    looked up by name. *)
Record RawRow : Type := mkRawRow {
  raw_Start_Time : cell;
  raw_Start_Lat : option Float.t;
  raw_Start_Lng : option Float.t;
  raw_Severity : option Z;
  raw_State : option string;
  raw_Weather_Condition : option string;
  raw_extra : gmap string cell
}.

Record RawTable : Type := mkRawTable {
  columns : list string;
  raw_rows : list RawRow
}.

(** [name in df.columns].  The columns the script has added by the time
    it asks ([Date], [Hour], [Weekday], [Visibility_Level]) bear none of
    the names it asks for, so the columns of the source decide. *)
Definition has_column (df : RawTable) (name : string) : bool :=
  bool_decide (name ∈ columns df).

(** [row.get(name)]: the cell, or [None] when the row has no such key. *)
Definition row_get (row : RawRow) (name : string) : cell :=
  default CNone (raw_extra row !! name).

(** ** Derived columns *)

Definition road_condition (df : RawTable) (row : RawRow) : string :=
  if has_column df "Junction" && eq_True (row_get row "Junction") then "Junction"
  else if has_column df "Crossing" && eq_True (row_get row "Crossing") then "Crossing"
  else if has_column df "Roundabout" && eq_True (row_get row "Roundabout") then "Roundabout"
  else if has_column df "Bump" && eq_True (row_get row "Bump") then "Bump"
  else "Straight Road".

(** A row of the table before [dropna]: the source row and the derived
    columns.  [Date], [Hour] and [Weekday] are missing when the timestamp
    did not parse. *)
Record DerivedRow : Type := mkDerivedRow {
  d_raw : RawRow;
  d_Date : option date;
  d_Hour : option Z;
  d_Weekday : option string;
  d_Visibility_Level : string;
  d_Road_Condition : string
}.

(** A row of the canonical table, after [dropna]: the six columns it
    checks hold a value; [Hour] and [Weekday] are not among them. *)
Record Row : Type := mkRow {
  Start_Lat : Float.t;
  Start_Lng : Float.t;
  Severity : Z;
  State : string;
  Weather_Condition : string;
  Date : date;
  Hour : option Z;
  Weekday : option string;
  Visibility_Level : string;
  Road_Condition : string
}.

Section LoadData.

(** [pd.to_datetime(_, errors='coerce')] on one cell: [None] is [NaT]. *)
Variable to_datetime : cell -> option Timestamp.
(** [Timestamp.day_name()] *)
Variable day_name : date -> string.
(** [pd.to_numeric(_, errors='coerce')] on one cell: NaN for a value that
    is missing or not a number.  An integer column is read here through
    its float value, which orders the same way against 5. *)
Variable to_numeric : cell -> Float.t.

(** [pd.notnull(x)] on a float *)
Definition notnull (x : Float.t) : bool := negb (Float.is_nan x).

Definition visibility_level (df : RawTable) (row : RawRow) : string :=
  if has_column df "Visibility(mi)" then
    let x := to_numeric (row_get row "Visibility(mi)") in
    if notnull x && Float.geb x (Float.of_Z 5) then "Clear" else "Unclear"
  else "Unknown".

Definition derive (df : RawTable) (row : RawRow) : DerivedRow :=
  let Start_Time := to_datetime (raw_Start_Time row) in
  {| d_raw := row;
     d_Date := ts_date <$> Start_Time;
     d_Hour := ts_hour <$> Start_Time;
     d_Weekday := (fun t => day_name (ts_date t)) <$> Start_Time;
     d_Visibility_Level := visibility_level df row;
     d_Road_Condition := road_condition df row |}.

(** [dropna(subset=[Start_Lat, Start_Lng, Severity, State,
    Weather_Condition, Date])] on one row: the row, when none of the six
    is missing. *)
Definition dropna (r : DerivedRow) : option Row :=
  match raw_Start_Lat (d_raw r), raw_Start_Lng (d_raw r), raw_Severity (d_raw r),
        raw_State (d_raw r), raw_Weather_Condition (d_raw r), d_Date r with
  | Some lat, Some lng, Some sev, Some st, Some w, Some d =>
      Some {| Start_Lat := lat; Start_Lng := lng; Severity := sev; State := st;
              Weather_Condition := w; Date := d;
              Hour := d_Hour r; Weekday := d_Weekday r;
              Visibility_Level := d_Visibility_Level r;
              Road_Condition := d_Road_Condition r |}
  | _, _, _, _, _, _ => None
  end.

Definition load_data (df : RawTable) : list Row :=
  omap dropna (derive df <$> raw_rows df).

End LoadData.

(** ** Sidebar controls *)

Section Columns.
Context {A : Type} `{EqDecision A}.

(** [Series.unique()]: the distinct values, in order of first appearance. *)
Fixpoint unique (l : list A) : list A :=
  match l with
  | [] => []
  | x :: l' => x :: filter (fun y => y <> x) (unique l')
  end.

(** Number of rows of a column holding [v]. *)
Definition count (v : A) (l : list A) : nat :=
  length (filter (fun y => y = v) l).

(** Every distinct value with its number of rows, in order of first
    appearance: what [value_counts] has before it sorts by count. *)
Definition counted (l : list A) : list (A * nat) :=
  (fun v => (v, count v l)) <$> unique l.

(** [Series.isin(values)] on one row *)
Definition isin (v : A) (values : list A) : bool := bool_decide (v ∈ values).

End Columns.

(** [set(selected) != set(options)] *)
Definition set_ne `{Countable A} (selected options : list A) : bool :=
  bool_decide ((list_to_set selected : gset A) ≠ list_to_set options).

(** [sorted] on strings and on integers *)
Definition sorted_str (l : list string) : list string :=
  merge_sort (fun a b => String.leb a b) l.
Definition sorted_Z (l : list Z) : list Z := merge_sort Z.le l.

Definition states (df : list Row) : list string := sorted_str (unique (State <$> df)).
(** No weather value is missing in the canonical table, so the [dropna()]
    of the script removes nothing here. *)
Definition weather_options (df : list Row) : list string :=
  sorted_str (unique (Weather_Condition <$> df)).
Definition severity_levels (df : list Row) : list Z := sorted_Z (unique (Severity <$> df)).
Definition visibility_options : list string := ["Clear"; "Unclear"].
Definition road_options (df : list Row) : list string :=
  sorted_str (unique (Road_Condition <$> df)).

Inductive Page : Type := Home | Dashboard.

(** What [st.date_input] returns: a lone date, or a tuple of the dates
    picked so far. *)
Inductive DateInput : Type :=
  | LoneDate (d : date)
  | DateTuple (ds : list date).

Record Selection : Type := mkSelection {
  selected_states : list string;
  selected_weather : list string;
  selected_severity : list Z;
  selected_visibility : list string;
  selected_road : list string;
  selected_date_range : DateInput
}.

(** ** Filter *)

(** The script either computes a table or stops on the [ValueError] of
    unpacking a tuple that does not hold two dates. *)
Inductive outcome (T : Type) : Type :=
  | Ok (v : T)
  | ValueError.
Arguments Ok {T} v.
Arguments ValueError {T}.

Definition mask (df : list Row) (sel : Selection) (start_date end_date : date)
    (r : Row) : bool :=
  let mask := date_leb start_date (Date r) && date_leb (Date r) end_date in
  let mask :=
    if set_ne (selected_states sel) (states df)
    then mask && isin (State r) (selected_states sel) else mask in
  let mask :=
    if set_ne (selected_weather sel) (weather_options df)
    then mask && isin (Weather_Condition r) (selected_weather sel) else mask in
  let mask :=
    if set_ne (selected_severity sel) (severity_levels df)
    then mask && isin (Severity r) (selected_severity sel) else mask in
  let mask :=
    if set_ne (selected_visibility sel) visibility_options
    then mask && isin (Visibility_Level r) (selected_visibility sel) else mask in
  let mask :=
    if set_ne (selected_road sel) (road_options df)
    then mask && isin (Road_Condition r) (selected_road sel) else mask in
  mask.

Definition filtered_df (page : Page) (df : list Row) (sel : Selection)
    : outcome (list Row) :=
  match page with
  | Home => Ok df
  | Dashboard =>
      match selected_date_range sel with
      | DateTuple [start_date; end_date] =>
          Ok (filter (fun r => mask df sel start_date end_date r) df)
      | DateTuple _ => ValueError
      | LoneDate _ => Ok df
      end
  end.

(** ** Aggregation views *)

(** [Series.value_counts()]: one pair per distinct value, most frequent
    first.  The library does not document the order among values of equal
    count; here it is the order the merge leaves them in. *)
Definition value_counts `{EqDecision A} (l : list A) : list (A * nat) :=
  merge_sort (fun a b => (snd b <=? snd a)%nat) (counted l).

(** [Series.sort_index()] on a column counted by hour *)
Definition sort_index (s : list (Z * nat)) : list (Z * nat) :=
  merge_sort (fun a b => fst a <=? fst b) s.

(** [value_counts] leaves missing values out: only the hours that are
    there are counted. *)
Definition hourly_counts (filtered : list Row) : list (Z * nat) :=
  sort_index (value_counts (omap Hour filtered)).

Definition weather_counts (filtered : list Row) : list (string * nat) :=
  take 5 (value_counts (Weather_Condition <$> filtered)).

Record Metrics : Type := mkMetrics {
  total : nat;
  fatal : nat;
  severe : nat;
  slight : nat
}.

Definition severity_metrics (filtered : list Row) : Metrics :=
  {| total := length filtered;
     fatal := length (filter (fun r => Severity r = 4) filtered);
     severe := length (filter (fun r => Severity r = 3) filtered);
     slight := length (filter (fun r => Severity r = 2) filtered) |}.

(** ** The specification's reading of the filter *)

Inductive Dim : Type := DState | DWeather | DSeverity | DVisibility | DRoad.

#[global] Instance Dim_eq_dec : EqDecision Dim.
Proof. solve_decision. Defined.

Definition all_dims : list Dim := [DState; DWeather; DSeverity; DVisibility; DRoad].

(** One dimension's guarded test, as each [if set(..) != set(..)] block of
    the script applies it. *)
Definition guarded `{Countable A} (selected options : list A) (v : A) : bool :=
  if set_ne selected options then isin v selected else true.

Definition dim_constraint (d : Dim) (df : list Row) (sel : Selection) (r : Row) : bool :=
  match d with
  | DState => guarded (selected_states sel) (states df) (State r)
  | DWeather => guarded (selected_weather sel) (weather_options df) (Weather_Condition r)
  | DSeverity => guarded (selected_severity sel) (severity_levels df) (Severity r)
  | DVisibility => guarded (selected_visibility sel) visibility_options (Visibility_Level r)
  | DRoad => guarded (selected_road sel) (road_options df) (Road_Condition r)
  end.

(** The rows passing the categorical tests of the listed dimensions. *)
Definition categorical (dims : list Dim) (df : list Row) (sel : Selection) (r : Row) : bool :=
  forallb (fun d => dim_constraint d df sel r) dims.

Definition in_range (start_date end_date : date) (r : Row) : Prop :=
  date_le start_date (Date r) /\ date_le (Date r) end_date.

(** [selected] is a strict subset of [universe], both read as sets. *)
Definition strict_subset `{Countable A} (selected universe : list A) : Prop :=
  (list_to_set selected : gset A) ⊂ list_to_set universe.

(** A multiselect only returns values taken from its options. *)
Definition from_options `{Countable A} (selected options : list A) : Prop :=
  (list_to_set selected : gset A) ⊆ list_to_set options.

Definition within_options (df : list Row) (sel : Selection) : Prop :=
  from_options (selected_states sel) (states df)
  /\ from_options (selected_weather sel) (weather_options df)
  /\ from_options (selected_severity sel) (severity_levels df)
  /\ from_options (selected_visibility sel) visibility_options
  /\ from_options (selected_road sel) (road_options df).

(** A dimension constrains a row only when its selection is a strict
    subset of its universe. *)
Definition member_if_strict `{Countable A} (selected universe : list A) (v : A) : Prop :=
  strict_subset selected universe -> v ∈ selected.

(** The filter contract in the specification's words: the date within the
    range and every strictly narrowed dimension satisfied. *)
Definition spec_keeps (df : list Row) (sel : Selection) (start_date end_date : date)
    (r : Row) : Prop :=
  in_range start_date end_date r
  /\ member_if_strict (selected_states sel) (states df) (State r)
  /\ member_if_strict (selected_weather sel) (weather_options df) (Weather_Condition r)
  /\ member_if_strict (selected_severity sel) (severity_levels df) (Severity r)
  /\ member_if_strict (selected_visibility sel) visibility_options (Visibility_Level r)
  /\ member_if_strict (selected_road sel) (road_options df) (Road_Condition r).

#[global] Instance spec_keeps_dec df sel s e r : Decision (spec_keeps df sel s e r).
Proof.
  unfold spec_keeps, in_range, date_le, member_if_strict, strict_subset, strict.
  apply _.
Defined.

(** The values a dimension takes in the table. *)
Definition selects_all (d : Dim) (df : list Row) (sel : Selection) : Prop :=
  match d with
  | DState => (list_to_set (selected_states sel) : gset string) = list_to_set (State <$> df)
  | DWeather =>
      (list_to_set (selected_weather sel) : gset string) = list_to_set (Weather_Condition <$> df)
  | DSeverity => (list_to_set (selected_severity sel) : gset Z) = list_to_set (Severity <$> df)
  | DVisibility =>
      (list_to_set (selected_visibility sel) : gset string) = list_to_set (Visibility_Level <$> df)
  | DRoad => (list_to_set (selected_road sel) : gset string) = list_to_set (Road_Condition <$> df)
  end.

Definition selects_none (d : Dim) (sel : Selection) : Prop :=
  match d with
  | DState => selected_states sel = []
  | DWeather => selected_weather sel = []
  | DSeverity => selected_severity sel = []
  | DVisibility => selected_visibility sel = []
  | DRoad => selected_road sel = []
  end.

Definition universe_nonempty (d : Dim) (df : list Row) : Prop :=
  match d with
  | DState => states df <> []
  | DWeather => weather_options df <> []
  | DSeverity => severity_levels df <> []
  | DVisibility => visibility_options <> []
  | DRoad => road_options df <> []
  end.

(** The filter with the date test and the categorical tests of every
    dimension but [d]. *)
Definition mask_without (d : Dim) (df : list Row) (sel : Selection)
    (start_date end_date : date) (r : Row) : bool :=
  date_leb start_date (Date r) && date_leb (Date r) end_date
  && categorical (filter (fun d' => d' <> d) all_dims) df sel r.

(** ** The specification's reading of [road_condition] *)

(** A flag is set only when its cell is the boolean [True]. *)
Definition literally_true (v : cell) : bool :=
  match v with CBool true => true | _ => false end.

Definition flags : list string := ["Junction"; "Crossing"; "Roundabout"; "Bump"].

Definition first_flag (set : string -> bool) : string :=
  default "Straight Road" (head (filter (fun f => set f) flags)).

Definition road_condition_literal (df : RawTable) (row : RawRow) : string :=
  first_flag (fun f => has_column df f && literally_true (row_get row f)).

(** ** Sample data *)

Definition raw_with (extra : gmap string cell) : RawRow :=
  {| raw_Start_Time := CStr "2020-03-01 08:15:00";
     raw_Start_Lat := Some (Float.of_Z 34);
     raw_Start_Lng := Some (Float.of_Z (-118));
     raw_Severity := Some 2;
     raw_State := Some "CA";
     raw_Weather_Condition := Some "Fair";
     raw_extra := extra |}.

(** A row whose [Junction] cell holds the float 1.0 and no other flag. *)
Definition float_junction_row : RawRow :=
  raw_with (<["Junction" := CFloat (Float.of_Z 1)]>
            (<["Crossing" := CBool false]>
             (<["Roundabout" := CBool false]> (<["Bump" := CBool false]> ∅)))).

Definition float_junction_table : RawTable :=
  {| columns := flags; raw_rows := [float_junction_row] |}.

(** Stand-ins for the library's parsers, used to run the pipeline on the
    sample tables: every timestamp reads as 2020-03-01 08h, a Sunday, and
    only cells that already hold a number are numeric. *)
Definition sample_to_datetime (c : cell) : option Timestamp :=
  match c with
  | CStr _ => Some {| ts_date := mkdate 2020 3 1; ts_hour := 8 |}
  | _ => None
  end.

Definition sample_day_name (d : date) : string := "Sunday".

Definition sample_to_numeric (c : cell) : Float.t :=
  match c with
  | CInt z => Float.of_Z z
  | CFloat x => x
  | _ => Float.nan
  end.

Definition sample_load : RawTable -> list Row :=
  load_data sample_to_datetime sample_day_name sample_to_numeric.

(** A table with the visibility column: 10 miles, 2 miles, a missing value
    and a value that is not a number. *)
Definition visibility_table : RawTable :=
  {| columns := ["Visibility(mi)"];
     raw_rows := [ raw_with (<["Visibility(mi)" := CInt 10]> ∅);
                   raw_with (<["Visibility(mi)" := CInt 2]> ∅);
                   raw_with (<["Visibility(mi)" := CNone]> ∅);
                   raw_with (<["Visibility(mi)" := CStr "n/a"]> ∅) ] |}.

(** The same rows read from a file that has no visibility column. *)
Definition no_visibility_table : RawTable :=
  {| columns := flags;
     raw_rows := [ raw_with ∅; raw_with ∅ ] |}.

Definition loaded (visibility road : string) : Row :=
  {| Start_Lat := Float.of_Z 34; Start_Lng := Float.of_Z (-118);
     Severity := 2; State := "CA"; Weather_Condition := "Fair";
     Date := mkdate 2020 3 1; Hour := Some 8; Weekday := Some "Sunday";
     Visibility_Level := visibility; Road_Condition := road |}.

(** A canonical table of three accidents and the selections used on it. *)
Definition accident (d : date) (h : Z) (st w : string) (sev : Z)
    (visibility road : string) : Row :=
  {| Start_Lat := Float.of_Z 34; Start_Lng := Float.of_Z (-118);
     Severity := sev; State := st; Weather_Condition := w;
     Date := d; Hour := Some h; Weekday := Some "Sunday";
     Visibility_Level := visibility; Road_Condition := road |}.

Definition sample_df : list Row :=
  [ accident (mkdate 2020 3 1) 8 "CA" "Fair" 2 "Clear" "Junction";
    accident (mkdate 2020 3 2) 17 "TX" "Rain" 3 "Unclear" "Straight Road";
    accident (mkdate 2020 3 5) 8 "CA" "Rain" 4 "Clear" "Crossing" ].

(** The selection the sidebar starts from: everything selected. *)
Definition select_all (df : list Row) (range : DateInput) : Selection :=
  {| selected_states := states df;
     selected_weather := weather_options df;
     selected_severity := severity_levels df;
     selected_visibility := visibility_options;
     selected_road := road_options df;
     selected_date_range := range |}.

Definition with_states (l : list string) (sel : Selection) : Selection :=
  {| selected_states := l;
     selected_weather := selected_weather sel;
     selected_severity := selected_severity sel;
     selected_visibility := selected_visibility sel;
     selected_road := selected_road sel;
     selected_date_range := selected_date_range sel |}.

Definition with_severity (l : list Z) (sel : Selection) : Selection :=
  {| selected_states := selected_states sel;
     selected_weather := selected_weather sel;
     selected_severity := l;
     selected_visibility := selected_visibility sel;
     selected_road := selected_road sel;
     selected_date_range := selected_date_range sel |}.

Definition with_visibility (l : list string) (sel : Selection) : Selection :=
  {| selected_states := selected_states sel;
     selected_weather := selected_weather sel;
     selected_severity := selected_severity sel;
     selected_visibility := l;
     selected_road := selected_road sel;
     selected_date_range := selected_date_range sel |}.

Definition march : DateInput := DateTuple [mkdate 2020 3 1; mkdate 2020 3 31].
Definition first_days : DateInput := DateTuple [mkdate 2020 3 1; mkdate 2020 3 3].
Definition second_of_march : DateInput := DateTuple [mkdate 2020 3 2; mkdate 2020 3 2].

(** Tables for the aggregation views. *)
Definition at_hour (h : Z) : Row :=
  accident (mkdate 2020 3 1) h "CA" "Fair" 2 "Clear" "Junction".

Definition hours_table : list Row := at_hour <$> [5; 0; 23; 5; 0; 5].

Definition in_weather (w : string) : Row :=
  accident (mkdate 2020 3 1) 8 "CA" w 2 "Clear" "Junction".

Definition weather_table : list Row :=
  in_weather <$>
    (replicate 5 "Snow" ++ replicate 50 "Fair" ++ replicate 30 "Rain"
     ++ replicate 1 "Hail" ++ replicate 40 "Cloudy" ++ replicate 10 "Fog"
     ++ replicate 20 "Overcast")%list.

Definition of_severity (sev : Z) : Row :=
  accident (mkdate 2020 3 1) 8 "CA" "Fair" sev "Clear" "Junction".

Definition severity_table : list Row := of_severity <$> [2; 4; 1; 2; 3; 4; 2].

(** Only "Clear" ticked in the visibility control, over all of March. *)
Definition only_clear : Selection :=
  with_visibility ["Clear"] (select_all sample_df march).

(** ** Defaults of the sidebar *)

(** The smaller and the larger of two dates, as Python compares them. *)
Definition date_min (a b : date) : date := if date_leb a b then a else b.
Definition date_max (a b : date) : date := if date_leb a b then b else a.

(** [df['Date'].min()] and [df['Date'].max()]; an empty column has
    neither. *)
Definition min_date (df : list Row) : option date :=
  match Date <$> df with
  | [] => None
  | d :: ds => Some (foldl date_min d ds)
  end.

Definition max_date (df : list Row) : option date :=
  match Date <$> df with
  | [] => None
  | d :: ds => Some (foldl date_max d ds)
  end.

(** What the controls hold before the user touches them: every option of
    every multiselect, and the date control from the first to the last
    date of the table. *)
Definition default_selection (df : list Row) : option Selection :=
  match min_date df, max_date df with
  | Some start_date, Some end_date =>
      Some (select_all df (DateTuple [start_date; end_date]))
  | _, _ => None
  end.

(** ** Further aggregation views *)

(** [filtered_df['Road_Condition'].value_counts()] *)
Definition road_counts (filtered : list Row) : list (string * nat) :=
  value_counts (Road_Condition <$> filtered).

(** The key of a row in [groupby(['Hour', 'Severity'])]; a row without
    hour belongs to no group. *)
Definition hour_severity (r : Row) : option (Z * Z) :=
  match Hour r with
  | Some h => Some (h, Severity r)
  | None => None
  end.

(** The order of the group keys: by hour, then by severity. *)
Definition key_leb (a b : Z * Z) : bool :=
  (fst a <? fst b) || ((fst a =? fst b) && (snd a <=? snd b)).

(** [groupby(['Hour', 'Severity']).size()]: one count per pair present,
    in the order of the keys. *)
Definition sev_hour (filtered : list Row) : list (Z * Z * nat) :=
  merge_sort (fun a b => key_leb (fst a) (fst b))
             (counted (omap hour_severity filtered)).

(** Two selections that differ only in the order or the repetition of the
    selected values. *)
Definition same_choice (sel sel' : Selection) : Prop :=
  (list_to_set (selected_states sel) : gset string) = list_to_set (selected_states sel')
  /\ (list_to_set (selected_weather sel) : gset string) = list_to_set (selected_weather sel')
  /\ (list_to_set (selected_severity sel) : gset Z) = list_to_set (selected_severity sel')
  /\ (list_to_set (selected_visibility sel) : gset string)
       = list_to_set (selected_visibility sel')
  /\ (list_to_set (selected_road sel) : gset string) = list_to_set (selected_road sel')
  /\ selected_date_range sel = selected_date_range sel'.

(** [sel] selects, in every dimension, only values that [sel'] selects
    too, over the same dates. *)
Definition narrower (sel sel' : Selection) : Prop :=
  from_options (selected_states sel) (selected_states sel')
  /\ from_options (selected_weather sel) (selected_weather sel')
  /\ from_options (selected_severity sel) (selected_severity sel')
  /\ from_options (selected_visibility sel) (selected_visibility sel')
  /\ from_options (selected_road sel) (selected_road sel')
  /\ selected_date_range sel = selected_date_range sel'.

(** The five labels of [road_condition] and the three of the visibility
    level. *)
Definition road_labels : list string :=
  ["Junction"; "Crossing"; "Roundabout"; "Bump"; "Straight Road"].



(** * Properties *)

(** ** Road condition *)

Lemma eq_True_cases (v : cell) :
  eq_True v = true <->
  v = CBool true \/ v = CInt 1
  \/ exists x, v = CFloat x /\ Float.eqb x (Float.of_Z 1) = true.
Proof.
  destruct v as [|b|z|x|s]; simpl.
  - split; [discriminate | intros [H|[H|(x & H & _)]]; discriminate].
  - split.
    + intros ->. by left.
    + intros [H|[H|(x & H & _)]]; congruence.
  - rewrite Z.eqb_eq. split.
    + intros ->. right. by left.
    + intros [H|[H|(x & H & _)]]; congruence.
  - split.
    + intros H. right. right. by exists x.
    + intros [H|[H|(y & H & Hy)]]; congruence.
  - split; [discriminate | intros [H|[H|(x & H & _)]]; discriminate].
Qed.

Lemma first_flag_unfold (set : string -> bool) :
  first_flag set =
    if set "Junction" then "Junction"
    else if set "Crossing" then "Crossing"
    else if set "Roundabout" then "Roundabout"
    else if set "Bump" then "Bump"
    else "Straight Road".
Proof.
  unfold first_flag, flags. rewrite !filter_cons, filter_nil.
  destruct (set "Junction"), (set "Crossing"), (set "Roundabout"), (set "Bump");
    reflexivity.
Qed.

(** C3, counterexample: a [Junction] cell holding the float 1.0 is not the
    boolean true, so the first-match rule over literally true flags gives
    "Straight Road"; the program gives "Junction". *)
Lemma road_condition_float_one_counts :
  road_condition float_junction_table float_junction_row
    <> road_condition_literal float_junction_table float_junction_row
  /\ literally_true (row_get float_junction_row "Junction") = false
  /\ road_condition_literal float_junction_table float_junction_row = "Straight Road"
  /\ road_condition float_junction_table float_junction_row = "Junction".
Proof. split_and!; vm_compute; [discriminate | reflexivity..]. Qed.

(** C3, as amended: [road_condition] returns the first flag, in the order
    Junction, Crossing, Roundabout, Bump, whose column is in the table and
    whose cell equals [True] under Python's [==] (the boolean true, the
    integer 1 or the float 1.0; never a string, never a missing value), and
    "Straight Road" when there is none, as when the table has none of the
    four columns; the result is one of the five labels, and a true Junction
    wins whatever Crossing holds. *)
Theorem road_condition_first_match (df : RawTable) (row : RawRow) :
  road_condition df row
    = first_flag (fun f => has_column df f && eq_True (row_get row f))
  /\ (forall v, eq_True v = true <->
        v = CBool true \/ v = CInt 1
        \/ exists x, v = CFloat x /\ Float.eqb x (Float.of_Z 1) = true)
  /\ (forall s, eq_True (CStr s) = false)
  /\ eq_True CNone = false
  /\ road_condition df row ∈ (flags ++ ["Straight Road"])%list
  /\ (has_column df "Junction" = true -> row_get row "Junction" = CBool true ->
      road_condition df row = "Junction")
  /\ ((forall f, f ∈ flags -> has_column df f = false) ->
      road_condition df row = "Straight Road").
Proof.
  split_and!.
  - unfold road_condition. rewrite first_flag_unfold. done.
  - apply eq_True_cases.
  - done.
  - done.
  - unfold road_condition, flags.
    repeat case_match; set_solver.
  - intros Hc Hv. unfold road_condition. by rewrite Hc, Hv.
  - intros Habs. unfold road_condition, flags in *.
    rewrite !Habs by (rewrite !elem_of_cons; tauto). done.
Qed.

(** ** Visibility level *)

Section LoadFacts.

Variable to_datetime : cell -> option Timestamp.
Variable day_name : date -> string.
Variable to_numeric : cell -> Float.t.

Local Notation "'load'" := (load_data to_datetime day_name to_numeric).
Local Notation "'derived'" := (derive to_datetime day_name to_numeric).
Local Notation "'visibility'" := (visibility_level to_numeric).

Lemma elem_of_load_data (df : RawTable) (r : Row) :
  r ∈ load df <-> exists row, row ∈ raw_rows df /\ dropna (derived df row) = Some r.
Proof.
  unfold load_data. rewrite list_elem_of_omap. split.
  - intros (d & Hd & Hr). apply list_elem_of_fmap in Hd as (row & -> & Hrow). eauto.
  - intros (row & Hrow & Hr). exists (derived df row). split; [|done].
    by apply list_elem_of_fmap_2.
Qed.

Lemma dropna_derived (df : RawTable) (row : RawRow) (r : Row) :
  dropna (derived df row) = Some r ->
  Visibility_Level r = visibility df row /\ Road_Condition r = road_condition df row.
Proof.
  unfold dropna. intros H. repeat case_match; try discriminate.
  by simplify_eq.
Qed.

Lemma visibility_level_cases (df : RawTable) (row : RawRow) :
  visibility df row =
    if has_column df "Visibility(mi)" then
      if negb (Float.is_nan (to_numeric (row_get row "Visibility(mi)")))
         && Float.geb (to_numeric (row_get row "Visibility(mi)")) (Float.of_Z 5)
      then "Clear" else "Unclear"
    else "Unknown".
Proof. reflexivity. Qed.

(** C4: a row of the loaded table has visibility level "Unknown" exactly
    when the table has no visibility column; when it has one, the level is
    "Clear" if the coerced value of the row's cell is not NaN and is at
    least 5, and "Unclear" otherwise, a missing or non-numeric value
    included. *)
Theorem visibility_level_unknown_iff_absent (df : RawTable) (r : Row) :
  r ∈ load df ->
  (Visibility_Level r = "Unknown" <-> "Visibility(mi)" ∉ columns df)
  /\ ("Visibility(mi)" ∈ columns df ->
      exists row, row ∈ raw_rows df /\ dropna (derived df row) = Some r /\
        let x := to_numeric (row_get row "Visibility(mi)") in
        (Visibility_Level r = "Clear" <->
           Float.is_nan x = false /\ Float.geb x (Float.of_Z 5) = true)
        /\ (Visibility_Level r = "Unclear" <->
           ~ (Float.is_nan x = false /\ Float.geb x (Float.of_Z 5) = true))
        /\ (Float.is_nan x = true -> Visibility_Level r = "Unclear")).
Proof.
  intros (row & Hrow & Hr)%elem_of_load_data.
  destruct (dropna_derived _ _ _ Hr) as [Hv _].
  rewrite Hv, visibility_level_cases. unfold has_column. split.
  - case_bool_decide as Hc; [|done].
    split; [|done]. case_match; discriminate.
  - intros Hc. exists row. split; [done|]. split; [done|]. cbv zeta.
    rewrite bool_decide_eq_true_2 by done.
    destruct (Float.is_nan (to_numeric (row_get row "Visibility(mi)"))),
             (Float.geb (to_numeric (row_get row "Visibility(mi)")) (Float.of_Z 5));
      simpl; split_and!; try split; try done; try (intros []; done);
      try (intros H; exfalso; apply H; done);
      intros _ [? ?]; discriminate.
Qed.

End LoadFacts.

(** The loaded row of the sample table whose visibility cell is "n/a". *)
Lemma visibility_level_unknown_iff_absent_witness :
  loaded "Unclear" "Straight Road" ∈ sample_load visibility_table
  /\ (Visibility_Level (loaded "Unclear" "Straight Road") = "Unknown"
        <-> "Visibility(mi)" ∉ columns visibility_table)
  /\ ("Visibility(mi)" ∈ columns visibility_table ->
      exists row, row ∈ raw_rows visibility_table
        /\ dropna (derive sample_to_datetime sample_day_name sample_to_numeric
                     visibility_table row) = Some (loaded "Unclear" "Straight Road")
        /\ let x := sample_to_numeric (row_get row "Visibility(mi)") in
           (Visibility_Level (loaded "Unclear" "Straight Road") = "Clear" <->
              Float.is_nan x = false /\ Float.geb x (Float.of_Z 5) = true)
           /\ (Visibility_Level (loaded "Unclear" "Straight Road") = "Unclear" <->
              ~ (Float.is_nan x = false /\ Float.geb x (Float.of_Z 5) = true))
           /\ (Float.is_nan x = true ->
               Visibility_Level (loaded "Unclear" "Straight Road") = "Unclear")).
Proof.
  assert (Hr : loaded "Unclear" "Straight Road" ∈ sample_load visibility_table).
  { vm_compute. do 2 right. left. }
  split; [exact Hr|].
  exact (visibility_level_unknown_iff_absent
           sample_to_datetime sample_day_name sample_to_numeric
           visibility_table (loaded "Unclear" "Straight Road") Hr).
Defined.

(** ** Filter engine *)

Lemma date_leb_antisym (a b : date) :
  date_leb a b = true -> date_leb b a = true -> a = b.
Proof.
  destruct a as [ya ma da], b as [yb mb db]. unfold date_leb. simpl.
  rewrite !orb_true_iff, !andb_true_iff, !orb_true_iff, !andb_true_iff.
  rewrite !Z.ltb_lt, !Z.eqb_eq, !Z.leb_le.
  intros H1 H2. f_equal; lia.
Qed.

Lemma date_leb_refl (a : date) : date_leb a a = true.
Proof.
  unfold date_leb. rewrite !Z.eqb_refl, Z.ltb_irrefl, Z.ltb_irrefl. simpl.
  by apply Z.leb_le.
Qed.

Lemma filter_ext_in {A} (P Q : A -> Prop) `{!forall x, Decision (P x)}
    `{!forall x, Decision (Q x)} (l : list A) :
  (forall x, x ∈ l -> P x <-> Q x) -> filter P l = filter Q l.
Proof.
  induction l as [|x l IH]; intros Hl; [done|].
  rewrite !filter_cons.
  assert (HPQ : P x <-> Q x) by (apply Hl; left).
  rewrite IH by (intros y Hy; apply Hl; by right).
  destruct (decide (P x)), (decide (Q x)); tauto.
Qed.

Lemma filter_none {A} (P : A -> Prop) `{!forall x, Decision (P x)} (l : list A) :
  (forall x, x ∈ l -> ~ P x) -> filter P l = [].
Proof.
  induction l as [|x l IH]; intros Hl; [done|].
  rewrite filter_cons_False by (apply Hl; left).
  apply IH. intros y Hy. apply Hl. by right.
Qed.

Lemma filter_all {A} (P : A -> Prop) `{!forall x, Decision (P x)} (l : list A) :
  (forall x, x ∈ l -> P x) -> filter P l = l.
Proof.
  induction l as [|x l IH]; intros Hl; [done|].
  rewrite filter_cons_True by (apply Hl; left).
  f_equal. apply IH. intros y Hy. apply Hl. by right.
Qed.

Section Guard.
Context `{Countable A}.
Implicit Types selected options : list A.

Lemma set_ne_true selected options :
  set_ne selected options = true <->
  (list_to_set selected : gset A) <> list_to_set options.
Proof. unfold set_ne. apply bool_decide_eq_true. Qed.

Lemma isin_true (v : A) selected : isin v selected = true <-> v ∈ selected.
Proof. unfold isin. apply bool_decide_eq_true. Qed.

(** With a selection drawn from the options, the guard of the script is
    the strict-subset test of the specification. *)
Lemma guarded_member_if_strict selected options (v : A) :
  from_options selected options ->
  guarded selected options v = true <-> member_if_strict selected options v.
Proof.
  unfold from_options, guarded, member_if_strict, strict_subset. intros Hsub.
  destruct (set_ne selected options) eqn:E.
  - apply set_ne_true in E. rewrite isin_true. split; [auto|].
    intros Hm. apply Hm. split; [done|]. intros Hrev. apply E. set_solver.
  - split; [|done]. intros _ [_ Hn]. exfalso.
    apply not_true_iff_false in E. rewrite set_ne_true in E.
    destruct (decide ((list_to_set selected : gset A) = list_to_set options)) as [Heq|Hne];
      [|by apply E]. apply Hn. by rewrite Heq.
Qed.

(** Selecting every value the column takes lets every row of the table
    through, whether or not the guard fires. *)
Lemma guarded_all_selected selected options (column : list A) (v : A) :
  (list_to_set selected : gset A) = list_to_set column ->
  v ∈ column -> guarded selected options v = true.
Proof.
  intros Hall Hv. unfold guarded. case_match; [|done].
  apply isin_true. apply (elem_of_list_to_set (C:=gset A)). rewrite Hall.
  by apply elem_of_list_to_set.
Qed.

(** An empty selection against options that are not empty lets nothing
    through. *)
Lemma guarded_none_selected options (v : A) :
  options <> [] -> guarded [] options v = false.
Proof.
  intros Hne. unfold guarded.
  assert (E : set_ne [] options = true).
  { apply set_ne_true. destruct options as [|o options]; [done|].
    simpl. intros Heq. assert (o ∈ (∅ : gset A)) by (rewrite Heq; set_solver).
    set_solver. }
  rewrite E. unfold isin. apply bool_decide_eq_false. set_solver.
Qed.

End Guard.

(** The mask built step by step is the conjunction of the date test and
    the five guarded tests. *)
Lemma mask_conjunction (df : list Row) (sel : Selection) (s e : date) (r : Row) :
  mask df sel s e r
  = date_leb s (Date r) && date_leb (Date r) e && categorical all_dims df sel r.
Proof.
  unfold mask, categorical, all_dims, dim_constraint, guarded. simpl.
  destruct (set_ne (selected_states sel) (states df)),
           (set_ne (selected_weather sel) (weather_options df)),
           (set_ne (selected_severity sel) (severity_levels df)),
           (set_ne (selected_visibility sel) visibility_options),
           (set_ne (selected_road sel) (road_options df));
    rewrite ?andb_assoc, ?andb_true_r; reflexivity.
Qed.

Lemma categorical_all (df : list Row) (sel : Selection) (r : Row) :
  categorical all_dims df sel r = true <-> forall d, dim_constraint d df sel r = true.
Proof.
  unfold categorical. rewrite forallb_forall. split.
  - intros H d. apply H. destruct d; simpl; tauto.
  - intros H d _. apply H.
Qed.

Lemma categorical_split (d : Dim) (df : list Row) (sel : Selection) (r : Row) :
  categorical all_dims df sel r
  = dim_constraint d df sel r
    && categorical (filter (fun d' => d' <> d) all_dims) df sel r.
Proof.
  unfold categorical.
  destruct d; vm_compute filter; unfold all_dims; cbn [forallb];
    destruct (dim_constraint DState df sel r), (dim_constraint DWeather df sel r),
             (dim_constraint DSeverity df sel r), (dim_constraint DVisibility df sel r),
             (dim_constraint DRoad df sel r); reflexivity.
Qed.

Lemma filtered_df_range (df : list Row) (sel : Selection) (s e : date) :
  selected_date_range sel = DateTuple [s; e] ->
  filtered_df Dashboard df sel = Ok (filter (fun r => mask df sel s e r) df).
Proof. intros H. unfold filtered_df. by rewrite H. Qed.

(** C1: for a date range [(s, e)] and selections drawn from the options of
    the five controls, the filter returns exactly the rows of the table,
    in order and with their multiplicity, whose date lies in the range and
    whose value is selected in every dimension narrowed to a strict subset
    of its universe; a dimension with everything selected does not
    constrain.  The universe of a dimension is the option list of its
    control. *)
Theorem filter_engine_contract (df : list Row) (sel : Selection) (s e : date) :
  within_options df sel ->
  selected_date_range sel = DateTuple [s; e] ->
  filtered_df Dashboard df sel = Ok (filter (spec_keeps df sel s e) df).
Proof.
  intros (Hst & Hw & Hsev & Hv & Hr) Hrange.
  rewrite (filtered_df_range _ _ _ _ Hrange). f_equal.
  apply list_filter_iff. intros r.
  rewrite Is_true_true, mask_conjunction, !andb_true_iff, categorical_all.
  unfold spec_keeps, in_range, date_le.
  rewrite <-(guarded_member_if_strict _ _ (State r) Hst).
  rewrite <-(guarded_member_if_strict _ _ (Weather_Condition r) Hw).
  rewrite <-(guarded_member_if_strict _ _ (Severity r) Hsev).
  rewrite <-(guarded_member_if_strict _ _ (Visibility_Level r) Hv).
  rewrite <-(guarded_member_if_strict _ _ (Road_Condition r) Hr).
  split.
  - intros [Hd Hc]. split; [done|].
    split_and!; [apply (Hc DState) | apply (Hc DWeather) | apply (Hc DSeverity)
                | apply (Hc DVisibility) | apply (Hc DRoad)].
  - intros (Hd & H1 & H2 & H3 & H4 & H5). split; [done|].
    intros []; assumption.
Qed.

Lemma filter_engine_contract_witness :
  let sel := with_states ["CA"] (select_all sample_df first_days) in
  (within_options sample_df sel
   /\ selected_date_range sel = DateTuple [mkdate 2020 3 1; mkdate 2020 3 3])
  /\ filtered_df Dashboard sample_df sel
     = Ok (filter (spec_keeps sample_df sel (mkdate 2020 3 1) (mkdate 2020 3 3)) sample_df).
Proof.
  intros sel.
  assert (Hopt : within_options sample_df sel).
  { unfold within_options, from_options.
    split_and!; apply (bool_decide_unpack _); vm_compute; exact I. }
  assert (Hrange : selected_date_range sel = DateTuple [mkdate 2020 3 1; mkdate 2020 3 3])
    by reflexivity.
  split; [split; assumption |].
  exact (filter_engine_contract sample_df sel _ _ Hopt Hrange).
Defined.

(** C2, counterexample: with only "CA" selected and a lone date from the
    date control the program returns all three rows, not the two Californian
    ones; and with everything selected and the range 2020-03-02 to
    2020-03-02 it returns the one row of that day, not the table with the
    date test left out. *)
Lemma lone_date_keeps_other_filters_fails :
  let lone := with_states ["CA"] (select_all sample_df (LoneDate (mkdate 2020 3 2))) in
  let same_day := select_all sample_df second_of_march in
  filtered_df Dashboard sample_df lone
    <> Ok (filter (fun r => categorical all_dims sample_df lone r) sample_df)
  /\ length (filter (fun r => categorical all_dims sample_df lone r) sample_df) = 2%nat
  /\ filtered_df Dashboard sample_df lone = Ok sample_df
  /\ filtered_df Dashboard sample_df same_day
    <> Ok (filter (fun r => categorical all_dims sample_df same_day r) sample_df).
Proof.
  intros lone same_day. split_and!.
  - vm_compute. discriminate.
  - vm_compute. reflexivity.
  - reflexivity.
  - vm_compute. discriminate.
Qed.

(** C2, as amended: when the date control yields a lone date the whole
    filter block is skipped and the result is the entire table, the
    categorical selections included; a pair whose two dates are equal is an
    ordinary range and keeps the rows of that day that pass the categorical
    tests. *)
Theorem lone_date_skips_every_filter (df : list Row) (sel : Selection) (d : date) :
  (selected_date_range sel = LoneDate d -> filtered_df Dashboard df sel = Ok df)
  /\ (selected_date_range sel = DateTuple [d; d] ->
      filtered_df Dashboard df sel
      = Ok (filter (fun r => Date r = d /\ categorical all_dims df sel r = true) df)).
Proof.
  split; intros Hrange.
  - unfold filtered_df. by rewrite Hrange.
  - rewrite (filtered_df_range _ _ _ _ Hrange). f_equal.
    apply list_filter_iff. intros r.
    rewrite Is_true_true, mask_conjunction, !andb_true_iff. split.
    + intros [[H1 H2] Hc]. split; [|done]. by apply date_leb_antisym.
    + intros [<- Hc]. by rewrite date_leb_refl.
Qed.

Lemma lone_date_skips_every_filter_witness :
  let lone := with_states ["CA"] (select_all sample_df (LoneDate (mkdate 2020 3 2))) in
  let same_day := select_all sample_df second_of_march in
  filtered_df Dashboard sample_df lone = Ok sample_df
  /\ filtered_df Dashboard sample_df same_day
     = Ok (filter (fun r => Date r = mkdate 2020 3 2
                            /\ categorical all_dims sample_df same_day r = true) sample_df).
Proof.
  intros lone same_day. split.
  - exact (proj1 (lone_date_skips_every_filter sample_df lone (mkdate 2020 3 2)) eq_refl).
  - exact (proj2 (lone_date_skips_every_filter sample_df same_day (mkdate 2020 3 2)) eq_refl).
Defined.

Lemma dim_constraint_all_selected (d : Dim) (df : list Row) (sel : Selection) (r : Row) :
  selects_all d df sel -> r ∈ df -> dim_constraint d df sel r = true.
Proof.
  intros Hall Hr. destruct d; simpl in *;
    (eapply guarded_all_selected; [exact Hall | by apply list_elem_of_fmap_2]).
Qed.

(** C5: when the selection of a dimension is the set of all values the
    column takes in the table, the filter returns the same rows as the
    filter without that dimension's test, hence as many. *)
Theorem full_selection_is_no_constraint (d : Dim) (df : list Row) (sel : Selection)
    (s e : date) :
  selected_date_range sel = DateTuple [s; e] ->
  selects_all d df sel ->
  filtered_df Dashboard df sel = Ok (filter (fun r => mask_without d df sel s e r) df).
Proof.
  intros Hrange Hall. rewrite (filtered_df_range _ _ _ _ Hrange). f_equal.
  apply filter_ext_in. intros r Hr.
  rewrite mask_conjunction, (categorical_split d).
  rewrite (dim_constraint_all_selected d df sel r Hall Hr). done.
Qed.

Lemma full_selection_is_no_constraint_witness :
  let sel := with_severity [3; 4] (with_states ["TX"; "CA"; "TX"] (select_all sample_df march)) in
  (selected_date_range sel = DateTuple [mkdate 2020 3 1; mkdate 2020 3 31]
   /\ selects_all DState sample_df sel)
  /\ filtered_df Dashboard sample_df sel
     = Ok (filter (fun r => mask_without DState sample_df sel
                              (mkdate 2020 3 1) (mkdate 2020 3 31) r) sample_df).
Proof.
  intros sel.
  assert (Hall : selects_all DState sample_df sel).
  { unfold selects_all. apply (bool_decide_unpack _). vm_compute. exact I. }
  split; [split; [reflexivity | exact Hall] |].
  exact (full_selection_is_no_constraint DState sample_df sel _ _ eq_refl Hall).
Defined.

Lemma dim_constraint_none_selected (d : Dim) (df : list Row) (sel : Selection) (r : Row) :
  universe_nonempty d df -> selects_none d sel -> dim_constraint d df sel r = false.
Proof.
  intros Hne Hnone. destruct d; simpl in *; rewrite Hnone;
    by apply guarded_none_selected.
Qed.

(** C6: when the universe of a dimension is not empty and nothing is
    selected for it, the filter returns no row. *)
Theorem empty_selection_yields_no_rows (d : Dim) (df : list Row) (sel : Selection)
    (s e : date) :
  selected_date_range sel = DateTuple [s; e] ->
  universe_nonempty d df ->
  selects_none d sel ->
  filtered_df Dashboard df sel = Ok [].
Proof.
  intros Hrange Hne Hnone. rewrite (filtered_df_range _ _ _ _ Hrange). f_equal.
  apply filter_none. intros r _.
  rewrite mask_conjunction, (categorical_split d).
  rewrite (dim_constraint_none_selected d df sel r Hne Hnone).
  rewrite andb_false_r. simpl. tauto.
Qed.

Lemma empty_selection_yields_no_rows_witness :
  let sel := with_severity [] (select_all sample_df march) in
  (selected_date_range sel = DateTuple [mkdate 2020 3 1; mkdate 2020 3 31]
   /\ universe_nonempty DSeverity sample_df
   /\ selects_none DSeverity sel)
  /\ filtered_df Dashboard sample_df sel = Ok [].
Proof.
  intros sel.
  assert (Hne : universe_nonempty DSeverity sample_df).
  { unfold universe_nonempty. vm_compute. discriminate. }
  split; [split_and!; [reflexivity | exact Hne | reflexivity] |].
  exact (empty_selection_yields_no_rows DSeverity sample_df sel _ _ eq_refl Hne eq_refl).
Defined.

(** ** The visibility control on a table without visibility data *)

Lemma dim_constraint_unknown (df : list Row) (sel : Selection) (r : Row) :
  strict_subset (selected_visibility sel) visibility_options ->
  Visibility_Level r = "Unknown" ->
  dim_constraint DVisibility df sel r = false.
Proof.
  intros [Hsub Hns] Hv. simpl. unfold guarded.
  assert (E : set_ne (selected_visibility sel) visibility_options = true).
  { apply set_ne_true. intros Heq. apply Hns. by rewrite Heq. }
  rewrite E. unfold isin. apply bool_decide_eq_false. rewrite Hv. intros Hin.
  assert (Hopt : "Unknown" ∈ (list_to_set visibility_options : gset string)).
  { apply Hsub. by apply elem_of_list_to_set. }
  apply elem_of_list_to_set in Hopt. unfold visibility_options in Hopt.
  rewrite !elem_of_cons, elem_of_nil in Hopt.
  destruct Hopt as [?|[?|[]]]; discriminate.
Qed.

Section AbsentVisibility.

Variable to_datetime : cell -> option Timestamp.
Variable day_name : date -> string.
Variable to_numeric : cell -> Float.t.

Local Notation "'load'" := (load_data to_datetime day_name to_numeric).

Lemma load_data_unknown (raw : RawTable) (r : Row) :
  "Visibility(mi)" ∉ columns raw -> r ∈ load raw -> Visibility_Level r = "Unknown".
Proof.
  intros Habs Hr.
  apply elem_of_load_data in Hr as (row & _ & Hrow).
  apply dropna_derived in Hrow as [-> _].
  rewrite visibility_level_cases. unfold has_column.
  by rewrite bool_decide_eq_false_2.
Qed.

(** C10: the visibility control offers "Clear" and "Unclear" only, so once
    its selection is a strict subset of these two the filter keeps no row
    whose level is "Unknown"; on a table loaded from a source without the
    visibility column it keeps no row at all. *)
Theorem unknown_visibility_never_selected (raw : RawTable) (df : list Row)
    (sel : Selection) (s e : date) :
  selected_date_range sel = DateTuple [s; e] ->
  strict_subset (selected_visibility sel) visibility_options ->
  visibility_options = ["Clear"; "Unclear"]
  /\ (exists rows, filtered_df Dashboard df sel = Ok rows
        /\ forall r, r ∈ rows -> Visibility_Level r <> "Unknown")
  /\ ("Visibility(mi)" ∉ columns raw ->
      filtered_df Dashboard (load raw) sel = Ok []).
Proof.
  intros Hrange Hstrict. split_and!; [done | |].
  - eexists. split; [by apply filtered_df_range|].
    intros r Hr Hv. apply list_elem_of_filter in Hr as [Hm _].
    apply Is_true_true in Hm.
    rewrite mask_conjunction, (categorical_split DVisibility) in Hm.
    rewrite (dim_constraint_unknown _ _ _ Hstrict Hv), andb_false_r in Hm.
    discriminate.
  - intros Habs. rewrite (filtered_df_range _ _ _ _ Hrange). f_equal.
    apply filter_none. intros r Hr.
    rewrite mask_conjunction, (categorical_split DVisibility).
    rewrite (dim_constraint_unknown _ _ _ Hstrict (load_data_unknown _ _ Habs Hr)).
    rewrite andb_false_r. simpl. tauto.
Qed.

End AbsentVisibility.

Lemma unknown_visibility_never_selected_witness :
  (selected_date_range only_clear = march
   /\ strict_subset (selected_visibility only_clear) visibility_options)
  /\ visibility_options = ["Clear"; "Unclear"]
  /\ (exists rows, filtered_df Dashboard sample_df only_clear = Ok rows
        /\ forall r, r ∈ rows -> Visibility_Level r <> "Unknown")
  /\ ("Visibility(mi)" ∉ columns no_visibility_table ->
      filtered_df Dashboard (sample_load no_visibility_table) only_clear = Ok []).
Proof.
  assert (Hstrict : strict_subset (selected_visibility only_clear) visibility_options).
  { unfold strict_subset. apply (bool_decide_unpack _). vm_compute. exact I. }
  split; [split; [reflexivity | exact Hstrict] |].
  exact (unknown_visibility_never_selected
           sample_to_datetime sample_day_name sample_to_numeric
           no_visibility_table sample_df only_clear _ _ eq_refl Hstrict).
Defined.

(** ** Aggregation views *)

Section ColumnFacts.
Context {A : Type} `{EqDecision A}.
Implicit Types l : list A.

Lemma elem_of_unique (x : A) l : x ∈ unique l <-> x ∈ l.
Proof.
  induction l as [|y l IH]; [done|]. simpl.
  rewrite !elem_of_cons, list_elem_of_filter, IH.
  destruct (decide (x = y)); tauto.
Qed.

Lemma NoDup_unique l : NoDup (unique l).
Proof.
  induction l as [|y l IH]; simpl; [constructor|].
  apply NoDup_cons. split.
  - rewrite list_elem_of_filter. intros [Hne _]. by apply Hne.
  - by apply NoDup_filter.
Qed.

Lemma unique_Permutation l l' : l ≡ₚ l' -> unique l ≡ₚ unique l'.
Proof.
  intros Hp. apply NoDup_Permutation; [apply NoDup_unique..|].
  intros x. by rewrite !elem_of_unique, Hp.
Qed.

Lemma count_Permutation (v : A) l l' : l ≡ₚ l' -> count v l = count v l'.
Proof. intros Hp. unfold count. by rewrite Hp. Qed.

Lemma count_pos (v : A) l : (0 < count v l)%nat <-> v ∈ l.
Proof.
  unfold count. split.
  - intros Hc. destruct (filter (λ y, y = v) l) as [|y k] eqn:E; [simpl in Hc; lia|].
    assert (Hy : y ∈ filter (λ y, y = v) l) by (rewrite E; left).
    apply list_elem_of_filter in Hy as [-> Hy]. done.
  - intros Hv.
    assert (Hy : v ∈ filter (λ y, y = v) l) by (by apply list_elem_of_filter).
    destruct (filter (λ y, y = v) l); [by apply elem_of_nil in Hy | simpl; lia].
Qed.

Lemma count_fmap {B} (f : B -> A) (v : A) (k : list B) :
  count v (f <$> k) = length (filter (λ r, f r = v) k).
Proof.
  unfold count. induction k as [|r k IH]; [done|]. csimpl.
  rewrite !filter_cons. case_decide; simpl; by rewrite IH.
Qed.

Lemma count_omap {B} (f : B -> option A) (v : A) (k : list B) :
  count v (omap f k) = length (filter (λ r, f r = Some v) k).
Proof.
  unfold count. induction k as [|r k IH]; [done|]. csimpl.
  rewrite filter_cons. destruct (f r) as [w|] eqn:E.
  - rewrite filter_cons. destruct (decide (w = v)) as [->|Hne].
    + rewrite decide_True by done. simpl. by rewrite IH.
    + rewrite decide_False by congruence. done.
  - rewrite decide_False by done. done.
Qed.

Lemma elem_of_counted (v : A) (c : nat) l :
  (v, c) ∈ counted l <-> v ∈ l /\ c = count v l.
Proof.
  unfold counted. rewrite list_elem_of_fmap. split.
  - intros (w & Heq & Hw). rewrite elem_of_unique in Hw. simplify_eq. by split.
  - intros [Hv ->]. exists v. by rewrite elem_of_unique.
Qed.

Lemma counted_keys l : (counted l).*1 = unique l.
Proof.
  unfold counted. rewrite <-list_fmap_compose.
  induction (unique l) as [|x k IH]; [done|]. csimpl. by rewrite IH.
Qed.

Lemma counted_Permutation l l' : l ≡ₚ l' -> counted l ≡ₚ counted l'.
Proof.
  intros Hp. unfold counted. rewrite (unique_Permutation _ _ Hp).
  assert (Heq : (λ v, (v, count v l)) <$> unique l' = (λ v, (v, count v l')) <$> unique l').
  { apply list_fmap_ext. intros _ v _. f_equal. by apply count_Permutation. }
  by rewrite Heq.
Qed.

Lemma value_counts_Permutation l : value_counts l ≡ₚ counted l.
Proof. apply merge_sort_Permutation. Qed.

Lemma value_counts_sorted l :
  StronglySorted (λ a b : A * nat, Is_true (b.2 <=? a.2)%nat) (value_counts l).
Proof.
  unfold value_counts. apply StronglySorted_merge_sort.
  - intros a b c. rewrite !Is_true_true, !Nat.leb_le. lia.
  - intros a b. rewrite !Is_true_true, !Nat.leb_le. lia.
Qed.

End ColumnFacts.

(** Two sorted lists with the same elements are equal as soon as the order
    tells the elements apart. *)
Lemma sorted_Permutation_eq {A} (R : relation A) (l k : list A) :
  (forall x y, x ∈ k -> y ∈ k -> R x y -> R y x -> x = y) ->
  StronglySorted R l -> StronglySorted R k -> l ≡ₚ k -> l = k.
Proof.
  intros Hanti Hl Hk Hp. apply (StronglySorted_unique_strong R); [|done..].
  intros x y Hx Hy. apply Hanti; [by rewrite <-Hp | done].
Qed.

Lemma StronglySorted_weaken {A} (R Q : relation A) (l : list A) :
  (forall x y, R x y -> Q x y) -> StronglySorted R l -> StronglySorted Q l.
Proof.
  intros HRQ. induction 1 as [|x l Hl IH Hx]; constructor; [done|].
  eapply Forall_impl; [exact Hx|]. intros y. apply HRQ.
Qed.

Lemma sort_index_sorted (s : list (Z * nat)) :
  StronglySorted (λ a b : Z * nat, Is_true (a.1 <=? b.1)) (sort_index s).
Proof.
  unfold sort_index. apply StronglySorted_merge_sort.
  - intros a b c. rewrite !Is_true_true, !Z.leb_le. lia.
  - intros a b. rewrite !Is_true_true, !Z.leb_le. lia.
Qed.

Lemma hourly_counts_Permutation (filtered : list Row) :
  hourly_counts filtered ≡ₚ counted (omap Hour filtered).
Proof.
  unfold hourly_counts, sort_index.
  rewrite merge_sort_Permutation. apply value_counts_Permutation.
Qed.

Lemma sorted_strict (s : list (Z * nat)) :
  StronglySorted (λ a b : Z * nat, Is_true (a.1 <=? b.1)) s ->
  NoDup s.*1 ->
  StronglySorted (λ a b : Z * nat, a.1 < b.1) s.
Proof.
  induction 1 as [|x s Hs IH Hx]; intros Hnd; [constructor|].
  simpl in Hnd. apply NoDup_cons in Hnd as [Hnin Hnd].
  constructor; [by apply IH|].
  rewrite Forall_forall in Hx |- *. intros y Hy.
  specialize (Hx y Hy). apply Is_true_true, Z.leb_le in Hx.
  assert (x.1 <> y.1); [|lia].
  intros Heq. apply Hnin. rewrite Heq. by apply list_elem_of_fmap_2.
Qed.

(** C7: the hourly view has one pair per hour present in the table, with
    the number of rows of that hour, in strictly ascending order of hour;
    an hour without rows has no pair.  Rows at hours 0, 0, 5, 5, 5, 23, in
    any order, give (0,2), (5,3), (23,1). *)
Theorem hourly_counts_sorted_buckets (filtered : list Row) :
  StronglySorted (λ a b : Z * nat, a.1 < b.1) (hourly_counts filtered)
  /\ (forall h c, (h, c) ∈ hourly_counts filtered <->
        (exists r, r ∈ filtered /\ Hour r = Some h)
        /\ c = length (filter (λ r, Hour r = Some h) filtered))
  /\ (forall h c, (h, c) ∈ hourly_counts filtered -> (0 < c)%nat)
  /\ (omap Hour filtered ≡ₚ [0; 0; 5; 5; 5; 23] ->
      hourly_counts filtered = [(0, 2%nat); (5, 3%nat); (23, 1%nat)]).
Proof.
  assert (Hmem : forall h c, (h, c) ∈ hourly_counts filtered <->
            h ∈ omap Hour filtered /\ c = count h (omap Hour filtered)).
  { intros h c. rewrite hourly_counts_Permutation. apply elem_of_counted. }
  split_and!.
  - apply sorted_strict; [apply sort_index_sorted|].
    rewrite hourly_counts_Permutation, counted_keys. apply NoDup_unique.
  - intros h c. by rewrite Hmem, count_omap, list_elem_of_omap.
  - intros h c [Hh ->]%Hmem. by apply count_pos.
  - intros Hp.
    apply (sorted_Permutation_eq (λ a b : Z * nat, Is_true (a.1 <=? b.1))).
    + intros x y Hx Hy. rewrite !elem_of_cons, elem_of_nil in Hx, Hy.
      destruct Hx as [->|[->|[->|[]]]], Hy as [->|[->|[->|[]]]]; simpl; done.
    + apply sort_index_sorted.
    + repeat constructor.
    + rewrite hourly_counts_Permutation, (counted_Permutation _ _ Hp).
      vm_compute. reflexivity.
Qed.

Lemma hourly_counts_sorted_buckets_witness :
  omap Hour hours_table ≡ₚ [0; 0; 5; 5; 5; 23]
  /\ hourly_counts hours_table = [(0, 2%nat); (5, 3%nat); (23, 1%nat)].
Proof.
  assert (Hp : omap Hour hours_table ≡ₚ [0; 0; 5; 5; 5; 23]).
  { apply (bool_decide_unpack _). vm_compute. exact I. }
  split; [exact Hp|].
  exact (proj2 (proj2 (proj2 (hourly_counts_sorted_buckets hours_table))) Hp).
Defined.

Lemma value_counts_elem {A} `{EqDecision A} (l : list A) (v : A) (c : nat) :
  (v, c) ∈ value_counts l <-> v ∈ l /\ c = count v l.
Proof. rewrite value_counts_Permutation. apply elem_of_counted. Qed.

Lemma value_counts_keys {A} `{EqDecision A} (l : list A) :
  NoDup (value_counts l).*1 /\ length (value_counts l) = length (unique l).
Proof.
  split.
  - rewrite value_counts_Permutation, counted_keys. apply NoDup_unique.
  - rewrite value_counts_Permutation. unfold counted. by rewrite length_fmap.
Qed.

(** C8: the weather view has at most five pairs, each a weather value of
    the table with its number of rows, no value twice, in descending order
    of count, and no value left out has more rows than one kept.  Seven
    values with 50, 40, 30, 20, 10, 5 and 1 rows give the first five, in
    that order. *)
Theorem weather_counts_top_five (filtered : list Row) :
  let column := Weather_Condition <$> filtered in
  (length (weather_counts filtered) <= 5)%nat
  /\ length (weather_counts filtered) = (5 `min` length (unique column))%nat
  /\ NoDup (weather_counts filtered).*1
  /\ (forall w c, (w, c) ∈ weather_counts filtered -> w ∈ column /\ c = count w column)
  /\ StronglySorted (λ a b : string * nat, (b.2 <= a.2)%nat) (weather_counts filtered)
  /\ (forall w, w ∈ column -> w ∉ (weather_counts filtered).*1 ->
        forall w' c', (w', c') ∈ weather_counts filtered -> (count w column <= c')%nat)
  /\ (forall w1 w2 w3 w4 w5 w6 w7,
        (forall w, w ∈ column -> w ∈ [w1; w2; w3; w4; w5; w6; w7]) ->
        count w1 column = 50%nat -> count w2 column = 40%nat ->
        count w3 column = 30%nat -> count w4 column = 20%nat ->
        count w5 column = 10%nat -> count w6 column = 5%nat ->
        count w7 column = 1%nat ->
        weather_counts filtered
        = [(w1, 50%nat); (w2, 40%nat); (w3, 30%nat); (w4, 20%nat); (w5, 10%nat)]).
Proof.
  intros column. unfold weather_counts. fold column.
  pose proof (value_counts_sorted column) as Hsorted.
  pose proof (value_counts_keys column) as [Hnd Hlen].
  assert (Hsplit : value_counts column
                   = (take 5 (value_counts column) ++ drop 5 (value_counts column))%list)
    by (by rewrite take_drop).
  split_and!.
  - rewrite length_take. lia.
  - by rewrite length_take, Hlen.
  - rewrite fmap_take. eapply sublist_NoDup; [exact Hnd | apply sublist_take].
  - intros w c Hin. apply value_counts_elem.
    eapply elem_of_sublist; [exact Hin | apply sublist_take].
  - rewrite Hsplit in Hsorted. apply StronglySorted_app_1_l in Hsorted.
    eapply StronglySorted_weaken; [|exact Hsorted].
    intros a b Hab. by apply Is_true_true, Nat.leb_le in Hab.
  - intros w Hw Hnot w' c' Hin.
    assert (Hall : (w, count w column) ∈ value_counts column)
      by (by apply value_counts_elem).
    rewrite Hsplit in Hall. apply elem_of_app in Hall as [Hl|Hr].
    { exfalso. apply Hnot. by apply (list_elem_of_fmap_2 fst) in Hl. }
    rewrite Hsplit in Hsorted.
    pose proof (StronglySorted_app_1_elem_of _ _ _ _ _ Hsorted Hin Hr) as Hle.
    by apply Is_true_true, Nat.leb_le in Hle.
  - intros w1 w2 w3 w4 w5 w6 w7 Hdom H1 H2 H3 H4 H5 H6 H7.
    assert (Hin : forall w, w ∈ [w1; w2; w3; w4; w5; w6; w7] -> w ∈ column).
    { intros w Hw. apply count_pos. rewrite !elem_of_cons, elem_of_nil in Hw.
      destruct Hw as [->|[->|[->|[->|[->|[->|[->|[]]]]]]]]; lia. }
    assert (Hnd7 : NoDup [w1; w2; w3; w4; w5; w6; w7]).
    { repeat (apply NoDup_cons; split;
              [rewrite ?elem_of_cons, elem_of_nil; intros Hx;
               repeat (destruct Hx as [Hx|Hx]; [subst; lia|]); done |]).
      constructor. }
    assert (Hu : unique column ≡ₚ [w1; w2; w3; w4; w5; w6; w7]).
    { apply NoDup_Permutation; [apply NoDup_unique | done |].
      intros w. rewrite elem_of_unique. split; auto. }
    assert (Hvc : value_counts column
                  = [(w1, 50%nat); (w2, 40%nat); (w3, 30%nat); (w4, 20%nat);
                     (w5, 10%nat); (w6, 5%nat); (w7, 1%nat)]).
    { apply (sorted_Permutation_eq (λ a b : string * nat, Is_true (b.2 <=? a.2)%nat)).
      - intros x y Hx Hy. rewrite !elem_of_cons, elem_of_nil in Hx, Hy.
        destruct Hx as [->|[->|[->|[->|[->|[->|[->|[]]]]]]]],
                 Hy as [->|[->|[->|[->|[->|[->|[->|[]]]]]]]]; simpl; done.
      - done.
      - repeat constructor.
      - rewrite value_counts_Permutation. unfold counted. rewrite Hu. simpl.
        by rewrite H1, H2, H3, H4, H5, H6, H7. }
    by rewrite Hvc.
Qed.

Lemma weather_counts_top_five_witness :
  weather_counts weather_table
  = [("Fair", 50%nat); ("Cloudy", 40%nat); ("Rain", 30%nat); ("Overcast", 20%nat);
     ("Fog", 10%nat)].
Proof.
  apply (proj2 (proj2 (proj2 (proj2 (proj2 (proj2
           (weather_counts_top_five weather_table))))))
         "Fair" "Cloudy" "Rain" "Overcast" "Fog" "Snow" "Hail").
  - apply Forall_forall. apply (bool_decide_unpack _). vm_compute. exact I.
  - vm_compute. reflexivity.
  - vm_compute. reflexivity.
  - vm_compute. reflexivity.
  - vm_compute. reflexivity.
  - vm_compute. reflexivity.
  - vm_compute. reflexivity.
  - vm_compute. reflexivity.
Defined.

(** C9: the four metrics are the number of rows and the numbers of rows of
    severity 4, 3 and 2; severity 1 has no metric of its own.  Severities
    4, 4, 3, 2, 2, 2, 1, in any order, give 7, 2, 1 and 3. *)
Theorem severity_metrics_counts (filtered : list Row) :
  let column := Severity <$> filtered in
  total (severity_metrics filtered) = length filtered
  /\ fatal (severity_metrics filtered) = count 4 column
  /\ severe (severity_metrics filtered) = count 3 column
  /\ slight (severity_metrics filtered) = count 2 column
  /\ (column ≡ₚ [4; 4; 3; 2; 2; 2; 1] ->
      severity_metrics filtered
      = {| total := 7; fatal := 2; severe := 1; slight := 3 |}).
Proof.
  intros column. unfold column.
  split_and!; [done | by rewrite count_fmap.. |].
  intros Hp. unfold severity_metrics.
  rewrite <-!count_fmap, !(count_Permutation _ _ _ Hp).
  rewrite <-(length_fmap Severity), Hp. reflexivity.
Qed.

Lemma severity_metrics_counts_witness :
  Severity <$> severity_table ≡ₚ [4; 4; 3; 2; 2; 2; 1]
  /\ severity_metrics severity_table
     = {| total := 7; fatal := 2; severe := 1; slight := 3 |}.
Proof.
  assert (Hp : Severity <$> severity_table ≡ₚ [4; 4; 3; 2; 2; 2; 1]).
  { apply (bool_decide_unpack _). vm_compute. exact I. }
  split; [exact Hp|].
  exact (proj2 (proj2 (proj2 (proj2 (severity_metrics_counts severity_table)))) Hp).
Defined.

(** * Further properties *)


(** ** Loading *)

Section LoadInvariants.

Variable to_datetime : cell -> option Timestamp.
Variable day_name : date -> string.
Variable to_numeric : cell -> Float.t.

Local Notation "'load'" := (load_data to_datetime day_name to_numeric).
Local Notation "'derived'" := (derive to_datetime day_name to_numeric).

Lemma dropna_derived_Some (df : RawTable) (row : RawRow) (r : Row) :
  dropna (derived df row) = Some r <->
  exists lat lng sev st w t,
    raw_Start_Lat row = Some lat /\ raw_Start_Lng row = Some lng
    /\ raw_Severity row = Some sev /\ raw_State row = Some st
    /\ raw_Weather_Condition row = Some w
    /\ to_datetime (raw_Start_Time row) = Some t
    /\ r = {| Start_Lat := lat; Start_Lng := lng; Severity := sev; State := st;
              Weather_Condition := w; Date := ts_date t;
              Hour := Some (ts_hour t); Weekday := Some (day_name (ts_date t));
              Visibility_Level := visibility_level to_numeric df row;
              Road_Condition := road_condition df row |}.
Proof.
  unfold dropna, derive. simpl. split.
  - destruct (raw_Start_Lat row) as [lat|], (raw_Start_Lng row) as [lng|],
      (raw_Severity row) as [sev|], (raw_State row) as [st|],
      (raw_Weather_Condition row) as [w|],
      (to_datetime (raw_Start_Time row)) as [t|]; simpl; try discriminate.
    intros [= <-]. by exists lat, lng, sev, st, w, t.
  - intros (lat & lng & sev & st & w & t & -> & -> & -> & -> & -> & -> & ->).
    reflexivity.
Qed.

Lemma loaded_row_shape (df : RawTable) (r : Row) :
  r ∈ load df ->
  exists row t,
    row ∈ raw_rows df
    /\ Date r = ts_date t /\ Hour r = Some (ts_hour t)
    /\ Weekday r = Some (day_name (ts_date t))
    /\ Visibility_Level r = visibility_level to_numeric df row
    /\ Road_Condition r = road_condition df row.
Proof.
  intros (row & Hrow & Hr)%elem_of_load_data.
  apply dropna_derived_Some in Hr
    as (lat & lng & sev & st & w & t & _ & _ & _ & _ & _ & _ & ->).
  by exists row, t.
Qed.

Lemma road_condition_label (df : RawTable) (row : RawRow) :
  road_condition df row ∈ road_labels.
Proof. unfold road_condition, road_labels. repeat case_match; set_solver. Qed.



(** X3: on a loaded table the road-condition control offers at most five
    options, all among the five labels. *)
Theorem road_options_at_most_five (df : RawTable) :
  (forall x, x ∈ road_options (load df) -> x ∈ road_labels)
  /\ NoDup (road_options (load df))
  /\ (length (road_options (load df)) <= 5)%nat.
Proof.
  assert (Hperm : road_options (load df) ≡ₚ unique (Road_Condition <$> load df))
    by apply merge_sort_Permutation.
  assert (Hin : forall x, x ∈ road_options (load df) -> x ∈ road_labels).
  { intros x. rewrite Hperm, elem_of_unique.
    intros (r & -> & Hr)%list_elem_of_fmap.
    apply loaded_row_shape in Hr as (row & t & _ & _ & _ & _ & _ & ->).
    apply road_condition_label. }
  assert (Hnd : NoDup (road_options (load df))).
  { rewrite Hperm. apply NoDup_unique. }
  split_and!; [done..|].
  change 5%nat with (length road_labels).
  apply submseteq_length. by apply NoDup_submseteq.
Qed.

End LoadInvariants.



(** ** Options of the controls *)

Lemma sorted_str_facts (l : list string) :
  sorted_str l ≡ₚ l
  /\ Sorted (λ a b : string, Is_true (String.leb a b)) (sorted_str l).
Proof.
  split; [apply merge_sort_Permutation|].
  unfold sorted_str. apply Sorted_merge_sort.
  intros a b. rewrite !Is_true_true. apply String.leb_total.
Qed.

Lemma sorted_Z_facts (l : list Z) :
  sorted_Z l ≡ₚ l /\ StronglySorted Z.le (sorted_Z l).
Proof.
  split; [apply merge_sort_Permutation|].
  unfold sorted_Z. apply StronglySorted_merge_sort; [apply _|].
  intros a b. lia.
Qed.

Lemma StronglySorted_Z_strict (l : list Z) :
  StronglySorted Z.le l -> NoDup l -> StronglySorted Z.lt l.
Proof.
  induction 1 as [|x l Hl IH Hx]; intros Hnd; [constructor|].
  apply NoDup_cons in Hnd as [Hnin Hnd].
  constructor; [by apply IH|].
  rewrite Forall_forall in Hx |- *. intros y Hy.
  specialize (Hx y Hy). assert (x <> y) by (intros ->; done). lia.
Qed.

(** X4: each option list computed from the table holds exactly the values
    its column takes, each once, in ascending order (strictly ascending for
    the severity levels). *)
Theorem option_lists_sorted_distinct (df : list Row) :
  (NoDup (states df)
   /\ Sorted (λ a b : string, Is_true (String.leb a b)) (states df)
   /\ forall x, x ∈ states df <-> exists r, r ∈ df /\ State r = x)
  /\ (NoDup (weather_options df)
      /\ Sorted (λ a b : string, Is_true (String.leb a b)) (weather_options df)
      /\ forall x, x ∈ weather_options df <-> exists r, r ∈ df /\ Weather_Condition r = x)
  /\ (StronglySorted Z.lt (severity_levels df)
      /\ forall x, x ∈ severity_levels df <-> exists r, r ∈ df /\ Severity r = x)
  /\ (NoDup (road_options df)
      /\ Sorted (λ a b : string, Is_true (String.leb a b)) (road_options df)
      /\ forall x, x ∈ road_options df <-> exists r, r ∈ df /\ Road_Condition r = x).
Proof.
  assert (Hstr : forall (f : Row -> string),
    NoDup (sorted_str (unique (f <$> df)))
    /\ Sorted (λ a b : string, Is_true (String.leb a b)) (sorted_str (unique (f <$> df)))
    /\ forall x, x ∈ sorted_str (unique (f <$> df)) <-> exists r, r ∈ df /\ f r = x).
  { intros f. destruct (sorted_str_facts (unique (f <$> df))) as [Hp Hs].
    split_and!; [rewrite Hp; apply NoDup_unique | done |].
    intros x. rewrite Hp, elem_of_unique, list_elem_of_fmap.
    split; intros (r & ? & ?); exists r; by split. }
  split_and!; try apply (Hstr State); try apply (Hstr Weather_Condition);
    try apply (Hstr Road_Condition).
  - destruct (sorted_Z_facts (unique (Severity <$> df))) as [Hp Hs].
    apply StronglySorted_Z_strict; [done|].
    unfold severity_levels. rewrite Hp. apply NoDup_unique.
  - intros x. unfold severity_levels.
    rewrite (proj1 (sorted_Z_facts _)), elem_of_unique, list_elem_of_fmap.
    split; intros (r & ? & ?); exists r; by split.
Qed.

(** ** Dates *)

Lemma date_leb_le (a b : date) :
  date_leb a b = true <->
  year a < year b
  \/ (year a = year b /\ (month a < month b \/ (month a = month b /\ day a <= day b))).
Proof.
  unfold date_leb.
  rewrite !orb_true_iff, !andb_true_iff, !orb_true_iff, !andb_true_iff.
  by rewrite !Z.ltb_lt, !Z.eqb_eq, !Z.leb_le.
Qed.

Lemma date_leb_trans (a b c : date) :
  date_leb a b = true -> date_leb b c = true -> date_leb a c = true.
Proof. rewrite !date_leb_le. lia. Qed.

Lemma date_leb_total (a b : date) : date_leb a b = true \/ date_leb b a = true.
Proof. rewrite !date_leb_le. lia. Qed.

Lemma date_leb_false (a b : date) : date_leb a b = false -> date_leb b a = true.
Proof. intros H. destruct (date_leb_total a b); congruence. Qed.

Lemma foldl_date_min_lower (ds : list date) (d : date) :
  date_leb (foldl date_min d ds) d = true
  /\ forall x, x ∈ ds -> date_leb (foldl date_min d ds) x = true.
Proof.
  revert d. induction ds as [|y ds IH]; intros d; simpl.
  - split; [apply date_leb_refl | intros x Hx; by apply elem_of_nil in Hx].
  - destruct (IH (date_min d y)) as [H1 H2].
    assert (Hd : date_leb (date_min d y) d = true).
    { unfold date_min. destruct (date_leb d y) eqn:E;
        [apply date_leb_refl | by apply date_leb_false]. }
    assert (Hy : date_leb (date_min d y) y = true).
    { unfold date_min. destruct (date_leb d y) eqn:E; [done | apply date_leb_refl]. }
    split; [by eapply date_leb_trans|].
    intros x [->|Hx]%elem_of_cons; [by eapply date_leb_trans | by apply H2].
Qed.

Lemma foldl_date_max_upper (ds : list date) (d : date) :
  date_leb d (foldl date_max d ds) = true
  /\ forall x, x ∈ ds -> date_leb x (foldl date_max d ds) = true.
Proof.
  revert d. induction ds as [|y ds IH]; intros d; simpl.
  - split; [apply date_leb_refl | intros x Hx; by apply elem_of_nil in Hx].
  - destruct (IH (date_max d y)) as [H1 H2].
    assert (Hd : date_leb d (date_max d y) = true).
    { unfold date_max. destruct (date_leb d y) eqn:E; [done | apply date_leb_refl]. }
    assert (Hy : date_leb y (date_max d y) = true).
    { unfold date_max. destruct (date_leb d y) eqn:E;
        [apply date_leb_refl | by apply date_leb_false]. }
    split; [by eapply date_leb_trans|].
    intros x [->|Hx]%elem_of_cons; [by eapply date_leb_trans | by apply H2].
Qed.

Lemma min_date_lower (df : list Row) (s : date) (r : Row) :
  min_date df = Some s -> r ∈ df -> date_leb s (Date r) = true.
Proof.
  unfold min_date. intros Hs Hr.
  apply (list_elem_of_fmap_2 Date) in Hr.
  destruct (Date <$> df) as [|d ds]; [done|]. injection Hs as <-.
  destruct (foldl_date_min_lower ds d) as [H1 H2].
  apply elem_of_cons in Hr as [->|Hr]; auto.
Qed.

Lemma max_date_upper (df : list Row) (e : date) (r : Row) :
  max_date df = Some e -> r ∈ df -> date_leb (Date r) e = true.
Proof.
  unfold max_date. intros He Hr.
  apply (list_elem_of_fmap_2 Date) in Hr.
  destruct (Date <$> df) as [|d ds]; [done|]. injection He as <-.
  destruct (foldl_date_max_upper ds d) as [H1 H2].
  apply elem_of_cons in Hr as [->|Hr]; auto.
Qed.

(** ** The filter on its own *)

Lemma guarded_options `{Countable A} (options : list A) (v : A) :
  guarded options options v = true.
Proof.
  unfold guarded.
  assert (E : set_ne options options = false).
  { apply not_true_iff_false. rewrite set_ne_true. by intros Hne. }
  by rewrite E.
Qed.

(** X5: before the user changes anything the dashboard shows the whole
    table: with every option selected and the date control from the first
    to the last date of the table, the filter keeps every row. *)
Theorem default_selection_keeps_all (df : list Row) (sel : Selection) :
  default_selection df = Some sel ->
  filtered_df Dashboard df sel = Ok df.
Proof.
  unfold default_selection. intros Hsel.
  destruct (min_date df) as [s|] eqn:Hs; [|done].
  destruct (max_date df) as [e|] eqn:He; [|done].
  injection Hsel as <-.
  rewrite (filtered_df_range df (select_all df (DateTuple [s; e])) s e eq_refl).
  f_equal.
  apply filter_all. intros r Hr. apply Is_true_true.
  rewrite mask_conjunction, (min_date_lower _ _ _ Hs Hr), (max_date_upper _ _ _ He Hr).
  rewrite andb_true_l. apply categorical_all.
  intros []; simpl; apply guarded_options.
Qed.

Lemma default_selection_keeps_all_witness :
  default_selection sample_df
    = Some (select_all sample_df (DateTuple [mkdate 2020 3 1; mkdate 2020 3 5]))
  /\ filtered_df Dashboard sample_df
       (select_all sample_df (DateTuple [mkdate 2020 3 1; mkdate 2020 3 5]))
     = Ok sample_df.
Proof.
  assert (Hsel : default_selection sample_df
            = Some (select_all sample_df (DateTuple [mkdate 2020 3 1; mkdate 2020 3 5])))
    by reflexivity.
  split; [exact Hsel|].
  exact (default_selection_keeps_all sample_df _ Hsel).
Defined.

Lemma filter_sublist_impl {A} (P Q : A -> Prop) `{!forall x, Decision (P x)}
    `{!forall x, Decision (Q x)} (l : list A) :
  (forall x, x ∈ l -> P x -> Q x) -> filter P l `sublist_of` filter Q l.
Proof.
  induction l as [|x l IH]; intros Hl; [done|].
  assert (IH' : filter P l `sublist_of` filter Q l).
  { apply IH. intros y Hy. apply Hl. by right. }
  rewrite !filter_cons.
  destruct (decide (P x)) as [HP|HP], (decide (Q x)) as [HQ|HQ].
  - by apply sublist_skip.
  - exfalso. apply HQ, Hl; [left | done].
  - by apply sublist_cons.
  - done.
Qed.

Lemma sublist_filter_mono {A} (P : A -> Prop) `{!forall x, Decision (P x)}
    (l k : list A) :
  l `sublist_of` k -> filter P l `sublist_of` filter P k.
Proof.
  induction 1 as [|x l k Hlk IH|x l k Hlk IH]; [done| |].
  - rewrite !filter_cons. destruct (decide (P x)); [by apply sublist_skip | done].
  - rewrite filter_cons. destruct (decide (P x)); [by apply sublist_cons | done].
Qed.

Lemma filtered_rows_sublist (page : Page) (df : list Row) (sel : Selection)
    (rows : list Row) :
  filtered_df page df sel = Ok rows -> rows `sublist_of` df.
Proof.
  unfold filtered_df. destruct page; [by intros [= <-]|].
  destruct (selected_date_range sel) as [d|[|s [|e [|x ds]]]]; try discriminate.
  - by intros [= <-].
  - intros [= <-]. apply sublist_filter.
Qed.

(** X6: whatever the page and the selection, a table the filter returns
    is a sublist of the canonical table: rows are neither invented nor
    reordered nor repeated. *)
Theorem filtered_df_sublist (page : Page) (df : list Row) (sel : Selection)
    (rows : list Row) :
  filtered_df page df sel = Ok rows ->
  rows `sublist_of` df /\ (length rows <= length df)%nat.
Proof.
  intros Hrows%filtered_rows_sublist. split; [done | by apply sublist_length].
Qed.

Lemma filtered_df_sublist_witness :
  filtered_df Dashboard sample_df (with_states ["CA"] (select_all sample_df march))
    = Ok [ accident (mkdate 2020 3 1) 8 "CA" "Fair" 2 "Clear" "Junction";
           accident (mkdate 2020 3 5) 8 "CA" "Rain" 4 "Clear" "Crossing" ]
  /\ [ accident (mkdate 2020 3 1) 8 "CA" "Fair" 2 "Clear" "Junction";
       accident (mkdate 2020 3 5) 8 "CA" "Rain" 4 "Clear" "Crossing" ]
     `sublist_of` sample_df.
Proof.
  assert (H : filtered_df Dashboard sample_df
                (with_states ["CA"] (select_all sample_df march))
              = Ok [ accident (mkdate 2020 3 1) 8 "CA" "Fair" 2 "Clear" "Junction";
                     accident (mkdate 2020 3 5) 8 "CA" "Rain" 4 "Clear" "Crossing" ]).
  { vm_compute. reflexivity. }
  split; [exact H|].
  exact (proj1 (filtered_df_sublist Dashboard sample_df _ _ H)).
Defined.

(** X7: the script stops on a [ValueError] exactly on the dashboard page
    with a date tuple that does not hold two dates, as the date control
    returns while a range is being picked; the home page never stops. *)
Theorem filtered_df_error_iff (page : Page) (df : list Row) (sel : Selection) :
  filtered_df page df sel = ValueError <->
  page = Dashboard
  /\ exists ds, selected_date_range sel = DateTuple ds /\ length ds <> 2%nat.
Proof.
  unfold filtered_df. destruct page.
  - split; [discriminate | intros [? _]; discriminate].
  - destruct (selected_date_range sel) as [d|ds] eqn:E.
    + split; [discriminate | intros [_ (ds & ? & _)]; discriminate].
    + destruct ds as [|s [|e [|x ds]]]; simpl; split; try discriminate;
        try (intros _; split; [done|]; eexists; split; [done | simpl; lia]).
      all: intros [_ (ds' & [= <-] & Hlen)]; simpl in Hlen; first [done | lia].
Qed.

Section SameSets.
Context `{Countable A}.

Lemma set_ne_proper (l l' options : list A) :
  (list_to_set l : gset A) = list_to_set l' ->
  set_ne l options = set_ne l' options.
Proof. intros Heq. unfold set_ne. by rewrite Heq. Qed.

Lemma isin_proper (l l' : list A) (v : A) :
  (list_to_set l : gset A) = list_to_set l' -> isin v l = isin v l'.
Proof.
  intros Heq. unfold isin. apply bool_decide_ext.
  by rewrite <-!(elem_of_list_to_set (C:=gset A)), Heq.
Qed.

Lemma guarded_proper (l l' options : list A) (v : A) :
  (list_to_set l : gset A) = list_to_set l' ->
  guarded l options v = guarded l' options v.
Proof.
  intros Heq. unfold guarded.
  by rewrite (set_ne_proper _ _ _ Heq), (isin_proper _ _ _ Heq).
Qed.

(** Ticking more values of a control, within its options, lets through
    every value that passed before. *)
Lemma guarded_mono (l l' options : list A) (v : A) :
  from_options l l' -> from_options l' options ->
  guarded l options v = true -> guarded l' options v = true.
Proof.
  unfold from_options, guarded. intros Hl Hl'.
  destruct (set_ne l' options) eqn:E'; [|done].
  assert (E : set_ne l options = true).
  { apply set_ne_true in E'. apply set_ne_true. intros Heq. apply E'.
    apply (anti_symm (⊆)); [done|]. by rewrite <-Heq. }
  rewrite E, !isin_true. intros Hv.
  apply (elem_of_list_to_set (C:=gset A)), Hl. by apply elem_of_list_to_set.
Qed.

End SameSets.

(** X8: the order in which values were ticked, and a value listed twice,
    change nothing: two selections with the same sets of values and the
    same dates give the same outcome. *)
Theorem filtered_df_same_choice (page : Page) (df : list Row) (sel sel' : Selection) :
  same_choice sel sel' ->
  filtered_df page df sel = filtered_df page df sel'.
Proof.
  intros (Hst & Hw & Hsev & Hv & Hr & Hd).
  unfold filtered_df. destruct page; [done|]. rewrite <-Hd.
  destruct (selected_date_range sel) as [d|[|s [|e [|x ds]]]]; try done.
  f_equal. apply list_filter_iff. intros r.
  rewrite !mask_conjunction. unfold categorical, all_dims. simpl.
  by rewrite (guarded_proper _ _ _ _ Hst), (guarded_proper _ _ _ _ Hw),
    (guarded_proper _ _ _ _ Hsev), (guarded_proper _ _ _ _ Hv),
    (guarded_proper _ _ _ _ Hr).
Qed.

Lemma filtered_df_same_choice_witness :
  same_choice (with_states ["CA"] (select_all sample_df march))
              (with_states ["CA"; "CA"] (select_all sample_df march))
  /\ filtered_df Dashboard sample_df (with_states ["CA"] (select_all sample_df march))
     = filtered_df Dashboard sample_df (with_states ["CA"; "CA"] (select_all sample_df march)).
Proof.
  assert (H : same_choice (with_states ["CA"] (select_all sample_df march))
                          (with_states ["CA"; "CA"] (select_all sample_df march))).
  { unfold same_choice.
    split_and!; first [reflexivity | apply (bool_decide_unpack _); vm_compute; exact I]. }
  split; [exact H|].
  exact (filtered_df_same_choice Dashboard sample_df _ _ H).
Defined.

(** X9: a range whose end lies before its start keeps no row. *)
Theorem inverted_range_keeps_nothing (df : list Row) (sel : Selection) (s e : date) :
  selected_date_range sel = DateTuple [s; e] ->
  date_leb s e = false ->
  filtered_df Dashboard df sel = Ok [].
Proof.
  intros Hrange Hinv. rewrite (filtered_df_range _ _ _ _ Hrange). f_equal.
  apply filter_none. intros r _ Hm. apply Is_true_true in Hm.
  rewrite mask_conjunction, !andb_true_iff in Hm. destruct Hm as [[H1 H2] _].
  by rewrite (date_leb_trans _ _ _ H1 H2) in Hinv.
Qed.

Lemma inverted_range_keeps_nothing_witness :
  (selected_date_range (select_all sample_df (DateTuple [mkdate 2020 3 5; mkdate 2020 3 1]))
   = DateTuple [mkdate 2020 3 5; mkdate 2020 3 1]
   /\ date_leb (mkdate 2020 3 5) (mkdate 2020 3 1) = false)
  /\ filtered_df Dashboard sample_df
       (select_all sample_df (DateTuple [mkdate 2020 3 5; mkdate 2020 3 1]))
     = Ok [].
Proof.
  split; [split; reflexivity |].
  exact (inverted_range_keeps_nothing sample_df
           (select_all sample_df (DateTuple [mkdate 2020 3 5; mkdate 2020 3 1]))
           (mkdate 2020 3 5) (mkdate 2020 3 1) eq_refl eq_refl).
Defined.

(** X10: ticking more values never removes a row: if a selection picks, in
    every dimension, only values that a second one drawn from the options
    picks too, over the same two dates, the first result is a sublist of
    the second. *)
Theorem wider_selection_keeps_more (df : list Row) (sel sel' : Selection) (s e : date) :
  selected_date_range sel = DateTuple [s; e] ->
  narrower sel sel' ->
  within_options df sel' ->
  exists rows rows',
    filtered_df Dashboard df sel = Ok rows
    /\ filtered_df Dashboard df sel' = Ok rows'
    /\ rows `sublist_of` rows'.
Proof.
  intros Hrange (Hst & Hw & Hsev & Hv & Hr & Hd) (Ost & Ow & Osev & Ov & Or).
  assert (Hrange' : selected_date_range sel' = DateTuple [s; e]) by congruence.
  eexists _, _. split_and!; [by apply filtered_df_range..|].
  apply filter_sublist_impl. intros r _.
  rewrite !Is_true_true, !mask_conjunction, !andb_true_iff, !categorical_all.
  intros [Hdate Hc]. split; [done|].
  intros []; simpl;
    [ eapply guarded_mono; [exact Hst | exact Ost | apply (Hc DState)]
    | eapply guarded_mono; [exact Hw | exact Ow | apply (Hc DWeather)]
    | eapply guarded_mono; [exact Hsev | exact Osev | apply (Hc DSeverity)]
    | eapply guarded_mono; [exact Hv | exact Ov | apply (Hc DVisibility)]
    | eapply guarded_mono; [exact Hr | exact Or | apply (Hc DRoad)] ].
Qed.

Lemma wider_selection_keeps_more_witness :
  (selected_date_range (with_states ["CA"] (select_all sample_df march))
   = DateTuple [mkdate 2020 3 1; mkdate 2020 3 31]
   /\ narrower (with_states ["CA"] (select_all sample_df march))
               (select_all sample_df march)
   /\ within_options sample_df (select_all sample_df march))
  /\ exists rows rows',
       filtered_df Dashboard sample_df (with_states ["CA"] (select_all sample_df march))
       = Ok rows
       /\ filtered_df Dashboard sample_df (select_all sample_df march) = Ok rows'
       /\ rows `sublist_of` rows'.
Proof.
  assert (Hn : narrower (with_states ["CA"] (select_all sample_df march))
                        (select_all sample_df march)).
  { unfold narrower, from_options.
    split_and!; first [reflexivity | apply (bool_decide_unpack _); vm_compute; exact I]. }
  assert (Ho : within_options sample_df (select_all sample_df march)).
  { unfold within_options, from_options.
    split_and!; apply (bool_decide_unpack _); vm_compute; exact I. }
  split; [split_and!; [reflexivity | exact Hn | exact Ho] |].
  exact (wider_selection_keeps_more sample_df
           (with_states ["CA"] (select_all sample_df march)) (select_all sample_df march)
           (mkdate 2020 3 1) (mkdate 2020 3 31) eq_refl Hn Ho).
Defined.

(** X11: widening the date range never removes a row. *)
Theorem wider_range_keeps_more (df : list Row) (sel sel' : Selection)
    (s e s' e' : date) :
  selected_date_range sel = DateTuple [s; e] ->
  selected_date_range sel' = DateTuple [s'; e'] ->
  date_leb s' s = true -> date_leb e e' = true ->
  selected_states sel = selected_states sel' ->
  selected_weather sel = selected_weather sel' ->
  selected_severity sel = selected_severity sel' ->
  selected_visibility sel = selected_visibility sel' ->
  selected_road sel = selected_road sel' ->
  exists rows rows',
    filtered_df Dashboard df sel = Ok rows
    /\ filtered_df Dashboard df sel' = Ok rows'
    /\ rows `sublist_of` rows'.
Proof.
  intros Hrange Hrange' Hs He Hst Hw Hsev Hv Hr.
  eexists _, _. split_and!; [by apply filtered_df_range..|].
  apply filter_sublist_impl. intros r _.
  rewrite !Is_true_true, !mask_conjunction, !andb_true_iff.
  unfold categorical, all_dims. simpl. rewrite <-Hst, <-Hw, <-Hsev, <-Hv, <-Hr.
  intros [[H1 H2] Hc]. split; [|done].
  split; eapply date_leb_trans; eauto.
Qed.

Lemma wider_range_keeps_more_witness :
  exists rows rows',
    filtered_df Dashboard sample_df (select_all sample_df first_days) = Ok rows
    /\ filtered_df Dashboard sample_df (select_all sample_df march) = Ok rows'
    /\ rows `sublist_of` rows'.
Proof.
  exact (wider_range_keeps_more sample_df
           (select_all sample_df first_days) (select_all sample_df march)
           (mkdate 2020 3 1) (mkdate 2020 3 3) (mkdate 2020 3 1) (mkdate 2020 3 31)
           eq_refl eq_refl eq_refl eq_refl eq_refl eq_refl eq_refl eq_refl eq_refl).
Defined.

(** X12: no metric of a filtered table exceeds the same metric of the
    whole table. *)
Theorem filtered_metrics_bounded (page : Page) (df : list Row) (sel : Selection)
    (rows : list Row) :
  filtered_df page df sel = Ok rows ->
  (total (severity_metrics rows) <= total (severity_metrics df))%nat
  /\ (fatal (severity_metrics rows) <= fatal (severity_metrics df))%nat
  /\ (severe (severity_metrics rows) <= severe (severity_metrics df))%nat
  /\ (slight (severity_metrics rows) <= slight (severity_metrics df))%nat.
Proof.
  intros Hsub%filtered_rows_sublist.
  unfold severity_metrics. simpl.
  split_and!; apply sublist_length; [done | by apply sublist_filter_mono..].
Qed.

Lemma filtered_metrics_bounded_witness :
  filtered_df Dashboard sample_df (with_states ["CA"] (select_all sample_df march))
    = Ok [ accident (mkdate 2020 3 1) 8 "CA" "Fair" 2 "Clear" "Junction";
           accident (mkdate 2020 3 5) 8 "CA" "Rain" 4 "Clear" "Crossing" ]
  /\ (total (severity_metrics
               [ accident (mkdate 2020 3 1) 8 "CA" "Fair" 2 "Clear" "Junction";
                 accident (mkdate 2020 3 5) 8 "CA" "Rain" 4 "Clear" "Crossing" ])
      <= total (severity_metrics sample_df))%nat.
Proof.
  assert (H : filtered_df Dashboard sample_df
                (with_states ["CA"] (select_all sample_df march))
              = Ok [ accident (mkdate 2020 3 1) 8 "CA" "Fair" 2 "Clear" "Junction";
                     accident (mkdate 2020 3 5) 8 "CA" "Rain" 4 "Clear" "Crossing" ]).
  { vm_compute. reflexivity. }
  split; [exact H|].
  exact (proj1 (filtered_metrics_bounded Dashboard sample_df _ _ H)).
Defined.

(** ** Counting *)

Section CountSums.
Context {A : Type} `{EqDecision A}.
Implicit Types l u : list A.

Lemma count_cons_filter (x : A) u l :
  x ∉ u ->
  length (filter (λ y, y ∈ x :: u) l)
  = (count x l + length (filter (λ y, y ∈ u) l))%nat.
Proof.
  intros Hx. unfold count. induction l as [|y l IH]; [done|].
  rewrite !filter_cons.
  destruct (decide (y = x)) as [->|Hne].
  - rewrite decide_True by left. rewrite decide_False by done. simpl. by rewrite IH.
  - destruct (decide (y ∈ u)) as [Hu|Hu].
    + rewrite decide_True by (by right). simpl. rewrite IH. lia.
    + rewrite decide_False; [done|]. intros [?|?]%elem_of_cons; done.
Qed.

Lemma count_sum u l :
  NoDup u ->
  sum_list_with (λ v, count v l) u = length (filter (λ y, y ∈ u) l).
Proof.
  induction 1 as [|x u Hx Hu IH]; simpl.
  - symmetry. rewrite filter_none; [done|]. intros y _. apply not_elem_of_nil.
  - by rewrite IH, count_cons_filter.
Qed.

Lemma filter_counted (P : A -> Prop) `{!forall x, Decision (P x)} u l :
  filter (λ e : A * nat, P e.1) ((λ v, (v, count v l)) <$> u)
  = (λ v, (v, count v l)) <$> filter P u.
Proof.
  induction u as [|x u IH]; [done|]. csimpl. rewrite !filter_cons. simpl.
  destruct (decide (P x)); csimpl; by rewrite IH.
Qed.

Lemma sum_counted u l :
  sum_list_with snd ((λ v, (v, count v l)) <$> u) = sum_list_with (λ v, count v l) u.
Proof. induction u as [|x u IH]; [done|]. csimpl. by rewrite IH. Qed.

(** The counts of the values satisfying [P] add up to the number of
    entries of the column satisfying [P]. *)
Lemma counted_sum_filter (P : A -> Prop) `{!forall x, Decision (P x)} l :
  sum_list_with snd (filter (λ e : A * nat, P e.1) (counted l))
  = length (filter P l).
Proof.
  unfold counted. rewrite filter_counted, sum_counted.
  rewrite count_sum by apply NoDup_filter, NoDup_unique.
  f_equal. apply filter_ext_in. intros y Hy.
  rewrite list_elem_of_filter, elem_of_unique. tauto.
Qed.

Lemma counted_sum l : sum_list_with snd (counted l) = length l.
Proof.
  rewrite <-(filter_all (λ _, True) l) at 2 by done.
  rewrite <-(counted_sum_filter (λ _, True)).
  by rewrite filter_all.
Qed.

Lemma value_counts_sum l : sum_list_with snd (value_counts l) = length l.
Proof. rewrite value_counts_Permutation. apply counted_sum. Qed.

Lemma unique_nil l : unique l = [] <-> l = [].
Proof. destruct l; simpl; split; done. Qed.

Lemma value_counts_nil l : value_counts l = [] <-> l = [].
Proof.
  rewrite <-unique_nil. split; intros Hnil.
  - apply length_zero_iff_nil.
    by rewrite <-(proj2 (value_counts_keys l)), Hnil.
  - apply length_zero_iff_nil.
    by rewrite (proj2 (value_counts_keys l)), Hnil.
Qed.

End CountSums.

(** ** Road conditions, hours and severities *)

(** X13: the road view has one pair per road condition present, with its
    number of rows, most frequent first, and its counts add up to the
    number of rows of the table. *)
Theorem road_counts_total (filtered : list Row) :
  NoDup (road_counts filtered).*1
  /\ (forall x c, (x, c) ∈ road_counts filtered <->
        (exists r, r ∈ filtered /\ Road_Condition r = x)
        /\ c = length (filter (λ r, Road_Condition r = x) filtered))
  /\ StronglySorted (λ a b : string * nat, (b.2 <= a.2)%nat) (road_counts filtered)
  /\ sum_list_with snd (road_counts filtered) = total (severity_metrics filtered).
Proof.
  unfold road_counts. split_and!.
  - apply value_counts_keys.
  - intros x c. rewrite value_counts_elem, count_fmap, list_elem_of_fmap.
    split; intros [(r & ? & ?) ->]; (split; [exists r; by split | done]).
  - eapply StronglySorted_weaken; [|apply value_counts_sorted].
    intros a b Hab. by apply Is_true_true, Nat.leb_le in Hab.
  - by rewrite value_counts_sum, length_fmap.
Qed.

Lemma hour_filter_length (h : Z) (filtered : list Row) :
  length (filter (λ k : Z * Z, k.1 = h) (omap hour_severity filtered))
  = length (filter (λ r, Hour r = Some h) filtered).
Proof.
  induction filtered as [|r l IH]; [done|]. csimpl.
  rewrite filter_cons. unfold hour_severity at 1.
  destruct (Hour r) as [h'|] eqn:E.
  - rewrite filter_cons. simpl.
    destruct (decide (h' = h)) as [->|Hne].
    + rewrite decide_True by done. simpl. by rewrite IH.
    + rewrite decide_False by congruence. done.
  - rewrite decide_False by done. done.
Qed.

Lemma omap_length_all {A B} (f : A -> option B) (l : list A) :
  (forall x, x ∈ l -> is_Some (f x)) -> length (omap f l) = length l.
Proof.
  induction l as [|x l IH]; intros Hall; [done|]. csimpl.
  destruct (Hall x) as [y ->]; [left|]. simpl. f_equal.
  apply IH. intros x' Hx'. apply Hall. by right.
Qed.

Lemma sev_hour_Permutation (filtered : list Row) :
  sev_hour filtered ≡ₚ counted (omap hour_severity filtered).
Proof. apply merge_sort_Permutation. Qed.

Lemma key_leb_le (a b : Z * Z) :
  key_leb a b = true <-> a.1 < b.1 \/ (a.1 = b.1 /\ a.2 <= b.2).
Proof.
  unfold key_leb.
  by rewrite orb_true_iff, andb_true_iff, Z.ltb_lt, Z.eqb_eq, Z.leb_le.
Qed.

Lemma sev_hour_sorted (filtered : list Row) :
  StronglySorted (λ a b : Z * Z * nat, Is_true (key_leb a.1 b.1)) (sev_hour filtered).
Proof.
  unfold sev_hour. apply StronglySorted_merge_sort.
  - intros a b c. rewrite !Is_true_true, !key_leb_le. lia.
  - intros a b. rewrite !Is_true_true, !key_leb_le. lia.
Qed.

(** X14: the hour-by-severity view has one entry per pair of hour and
    severity present in the table, with its number of rows, in strictly
    ascending order of hour and, within an hour, of severity. *)
Theorem sev_hour_groups (filtered : list Row) :
  StronglySorted
    (λ a b : Z * Z * nat, a.1.1 < b.1.1 \/ (a.1.1 = b.1.1 /\ a.1.2 < b.1.2))
    (sev_hour filtered)
  /\ (forall h s c, (h, s, c) ∈ sev_hour filtered <->
        (exists r, r ∈ filtered /\ Hour r = Some h /\ Severity r = s)
        /\ c = length (filter (λ r, Hour r = Some h /\ Severity r = s) filtered)).
Proof.
  split.
  - assert (Hnd : NoDup (sev_hour filtered).*1).
    { rewrite sev_hour_Permutation, counted_keys. apply NoDup_unique. }
    pose proof (sev_hour_sorted filtered) as Hs.
    induction Hs as [|x l Hl IH Hx]; [constructor|].
    simpl in Hnd. apply NoDup_cons in Hnd as [Hnin Hnd].
    constructor; [by apply IH|].
    rewrite Forall_forall in Hx |- *. intros y Hy.
    specialize (Hx y Hy). apply Is_true_true, key_leb_le in Hx.
    assert (Hne : x.1 <> y.1).
    { intros Heq. apply Hnin. rewrite Heq. by apply list_elem_of_fmap_2. }
    destruct x as [[xh xs] xc], y as [[yh ys] yc]. simpl in *.
    assert (xh <> yh \/ xs <> ys) by (destruct (decide (xh = yh)); [right|left]; congruence).
    lia.
  - intros h s c. rewrite sev_hour_Permutation, elem_of_counted, count_omap.
    rewrite list_elem_of_omap.
    assert (Hkey : forall r, hour_severity r = Some (h, s) <->
                             Hour r = Some h /\ Severity r = s).
    { intros r. unfold hour_severity. destruct (Hour r); split.
      - intros [= -> ->]. done.
      - intros [[= ->] ->]. done.
      - done.
      - intros [? _]. done. }
    rewrite (list_filter_iff _ (λ r, Hour r = Some h /\ Severity r = s)) by exact Hkey.
    split; intros [(r & Hr & Hk) ->]; (split; [exists r; split; [done|]; by apply Hkey | done]).
Qed.

(** X15: the two hourly charts agree: the counts the hour-by-severity view
    gives for an hour add up to the number of rows of that hour, which is
    the count the hourly view shows for it. *)
Theorem sev_hour_adds_up_to_hourly (filtered : list Row) (h : Z) :
  sum_list_with snd (filter (λ e : Z * Z * nat, e.1.1 = h) (sev_hour filtered))
  = length (filter (λ r, Hour r = Some h) filtered)
  /\ (forall c, (h, c) ∈ hourly_counts filtered ->
        c = sum_list_with snd
              (filter (λ e : Z * Z * nat, e.1.1 = h) (sev_hour filtered))).
Proof.
  assert (Hsum : sum_list_with snd
                   (filter (λ e : Z * Z * nat, e.1.1 = h) (sev_hour filtered))
                 = length (filter (λ r, Hour r = Some h) filtered)).
  { rewrite sev_hour_Permutation.
    exact (eq_trans (counted_sum_filter (λ k : Z * Z, k.1 = h) _)
                    (hour_filter_length h filtered)). }
  split; [exact Hsum|].
  intros c Hc. rewrite Hsum.
  rewrite hourly_counts_Permutation in Hc.
  apply elem_of_counted in Hc as [_ ->]. apply count_omap.
Qed.

(** X16: the metrics split the table: the total is the fatal, severe and
    slight counts plus the number of rows of any other severity. *)
Theorem severity_metrics_partition (filtered : list Row) :
  total (severity_metrics filtered)
  = (fatal (severity_metrics filtered) + severe (severity_metrics filtered)
     + slight (severity_metrics filtered)
     + length (filter (λ r, (Severity r <> 4 /\ Severity r <> 3 /\ Severity r <> 2)%Z)
                      filtered))%nat.
Proof.
  unfold severity_metrics. simpl.
  induction filtered as [|r l IH]; [done|].
  rewrite !filter_cons. simpl. rewrite IH.
  destruct (decide (Severity r = 4)), (decide (Severity r = 3)),
    (decide (Severity r = 2)),
    (decide (Severity r <> 4 /\ Severity r <> 3 /\ Severity r <> 2));
    simpl; lia.
Qed.

(** X17: the weather view never counts more rows than the table has; when
    the table has at most five weather conditions it shows them all and
    its counts add up to the number of rows. *)
Theorem weather_counts_coverage (filtered : list Row) :
  (sum_list_with snd (weather_counts filtered) <= length filtered)%nat
  /\ ((length (unique (Weather_Condition <$> filtered)) <= 5)%nat ->
      weather_counts filtered = value_counts (Weather_Condition <$> filtered)
      /\ sum_list_with snd (weather_counts filtered) = length filtered).
Proof.
  unfold weather_counts.
  pose proof (value_counts_sum (Weather_Condition <$> filtered)) as Hsum.
  rewrite length_fmap in Hsum. split.
  - rewrite <-Hsum.
    rewrite <-(take_drop 5 (value_counts (Weather_Condition <$> filtered))) at 2.
    rewrite sum_list_with_app. lia.
  - intros Hfive.
    assert (Htake : take 5 (value_counts (Weather_Condition <$> filtered))
                    = value_counts (Weather_Condition <$> filtered)).
    { apply take_ge. by rewrite (proj2 (value_counts_keys _)). }
    by rewrite Htake.
Qed.

Lemma weather_counts_coverage_witness :
  (length (unique (Weather_Condition <$> sample_df)) <= 5)%nat
  /\ weather_counts sample_df = value_counts (Weather_Condition <$> sample_df)
  /\ sum_list_with snd (weather_counts sample_df) = length sample_df.
Proof.
  assert (H : (length (unique (Weather_Condition <$> sample_df)) <= 5)%nat).
  { vm_compute. lia. }
  split; [exact H|].
  exact (proj2 (weather_counts_coverage sample_df) H).
Defined.

Lemma omap_nil_iff {A B} (f : A -> option B) (l : list A) :
  omap f l = [] <-> forall x, x ∈ l -> f x = None.
Proof.
  induction l as [|x l IH]; csimpl.
  - split; [intros _ y Hy; by apply elem_of_nil in Hy | done].
  - destruct (f x) eqn:E; simpl.
    + split; [done|]. intros Hall.
      assert (Hx : f x = None) by (apply Hall; left). congruence.
    + rewrite IH. split.
      * intros Hall y [->|Hy]%elem_of_cons; auto.
      * intros Hall y Hy. apply Hall. by right.
Qed.

(** X18: a view is empty exactly when there is nothing to count: the road
    and weather views when the table has no row, the hourly views when no
    row has an hour. *)
Theorem views_empty_iff (filtered : list Row) :
  (road_counts filtered = [] <-> filtered = [])
  /\ (weather_counts filtered = [] <-> filtered = [])
  /\ (hourly_counts filtered = [] <-> forall r, r ∈ filtered -> Hour r = None)
  /\ (sev_hour filtered = [] <-> forall r, r ∈ filtered -> Hour r = None).
Proof.
  assert (Hfmap : forall (f : Row -> string), f <$> filtered = [] <-> filtered = []).
  { intros f. destruct filtered; split; done. }
  assert (Hperm_nil : forall {B} (l k : list B), l ≡ₚ k -> l = [] <-> k = []).
  { intros B l k Hp. split; intros ->;
      [symmetry in Hp|]; by apply Permutation_nil_r in Hp. }
  split_and!.
  - unfold road_counts. by rewrite value_counts_nil.
  - unfold weather_counts. split; [|by intros ->].
    intros Htake. apply (Hfmap Weather_Condition), value_counts_nil.
    by destruct (value_counts (Weather_Condition <$> filtered)).
  - unfold hourly_counts, sort_index.
    rewrite (Hperm_nil _ _ _ (merge_sort_Permutation _ _)), value_counts_nil.
    apply omap_nil_iff.
  - rewrite (Hperm_nil _ _ _ (sev_hour_Permutation filtered)).
    assert (Hkeys : counted (omap hour_severity filtered) = []
                    <-> omap hour_severity filtered = []).
    { unfold counted. split; [|by intros ->].
      intros Hc%fmap_nil_inv. by apply (proj1 (unique_nil _)). }
    rewrite Hkeys, omap_nil_iff.
    split; intros Hall r Hr; specialize (Hall r Hr);
      unfold hour_severity in *; destruct (Hour r); done.
Qed.

(** ** From the source table to the charts *)

Section Pipeline.

Variable to_datetime : cell -> option Timestamp.
Variable day_name : date -> string.
Variable to_numeric : cell -> Float.t.

Local Notation "'load'" := (load_data to_datetime day_name to_numeric).

(** X19: on a table loaded from a source and then filtered, no accident
    is lost between the charts: the counts of the hourly view and those of
    the hour-by-severity view both add up to the total of the metrics, and
    the road view has at most five bars. *)
Theorem charts_account_for_every_row (raw : RawTable) (page : Page)
    (sel : Selection) (rows : list Row) :
  filtered_df page (load raw) sel = Ok rows ->
  sum_list_with snd (hourly_counts rows) = total (severity_metrics rows)
  /\ sum_list_with snd (sev_hour rows) = total (severity_metrics rows)
  /\ (length (road_counts rows) <= 5)%nat.
Proof.
  intros Hsub%filtered_rows_sublist.
  assert (Hshape : forall r, r ∈ rows ->
            is_Some (Hour r) /\ Road_Condition r ∈ road_labels).
  { intros r Hr.
    assert (Hl : r ∈ load raw) by (by eapply elem_of_sublist).
    apply loaded_row_shape in Hl as (row & t & _ & _ & Hh & _ & _ & Hrc).
    split; [by rewrite Hh | rewrite Hrc; apply road_condition_label]. }
  simpl. split_and!.
  - rewrite hourly_counts_Permutation, counted_sum.
    apply omap_length_all. intros r Hr. by apply Hshape.
  - rewrite sev_hour_Permutation, counted_sum.
    apply omap_length_all. intros r Hr. destruct (Hshape r Hr) as [[h Hh] _].
    unfold hour_severity. by rewrite Hh.
  - unfold road_counts.
    rewrite (proj2 (value_counts_keys _)).
    change 5%nat with (length road_labels).
    apply submseteq_length, NoDup_submseteq; [apply NoDup_unique|].
    intros x. rewrite elem_of_unique.
    intros (r & -> & Hr)%list_elem_of_fmap. by apply Hshape.
Qed.

End Pipeline.

Lemma charts_account_for_every_row_witness :
  filtered_df Dashboard (sample_load visibility_table)
    (select_all (sample_load visibility_table) march)
  = Ok (sample_load visibility_table)
  /\ sum_list_with snd (hourly_counts (sample_load visibility_table))
     = total (severity_metrics (sample_load visibility_table))
  /\ sum_list_with snd (sev_hour (sample_load visibility_table))
     = total (severity_metrics (sample_load visibility_table))
  /\ (length (road_counts (sample_load visibility_table)) <= 5)%nat.
Proof.
  assert (H : filtered_df Dashboard (sample_load visibility_table)
                (select_all (sample_load visibility_table) march)
              = Ok (sample_load visibility_table)).
  { vm_compute. reflexivity. }
  split; [exact H|].
  exact (charts_account_for_every_row
           sample_to_datetime sample_day_name sample_to_numeric
           visibility_table Dashboard
           (select_all (sample_load visibility_table) march)
           (sample_load visibility_table) H).
Defined.
